(** * Data Center Intelligence Dashboard: the filter / derive / aggregate
      pipeline of [streamlit_app.py], embedded and verified.

    The dashboard is a script that runs top to bottom on every render.  Each
    tab fetches one table, filters it with the widget selections, derives a
    few columns, aggregates, and hands the resulting frames to the page.

    Frames are lists of row records in row order.  A float64 column holds
    binary64 values (the kernel's primitive floats, with NaN standing for a
    missing number, as in pandas), a timestamp is an integer count of
    nanoseconds since the epoch, a date is a count of days, identifiers are
    strings.  The script's variables live in an environment that the
    statements of the script update one after the other. *)

From Stdlib Require Import ZArith List String Bool Lia Permutation Sorted.
From Stdlib Require Import Floats OrderedTypeEx.
Import ListNotations.

Set Warnings "-inexact-float".

Local Open Scope string_scope.
Local Open Scope float_scope.

(** * The pandas operations the script calls *)

Module Pandas.

(** ** Timestamps and dates *)

Definition timestamp := Z.
Definition date := Z.

(** [pd.to_datetime(d)] of a date: midnight of that day. *)
Definition to_datetime (d : date) : timestamp := (d * 86400000000000)%Z.

(** [Series.between(left, right)], both bounds included. *)
Definition between (left right : timestamp) (x : timestamp) : bool :=
  ((left <=? x) && (x <=? right))%Z.

(** [Series.isin(values)]. *)
Definition isin (values : list string) (x : string) : bool :=
  existsb (String.eqb x) values.

(** ** Cells that may hold [pd.NA] *)

Inductive cell (A : Type) : Type :=
| NA : cell A
| Val : A -> cell A.
Arguments NA {A}.
Arguments Val {A} _.

Definition cell_map {A B : Type} (f : A -> B) (c : cell A) : cell B :=
  match c with
  | NA => NA
  | Val a => Val (f a)
  end.

(** Conversion of a Python int to a float, rounding to nearest even. *)
Definition float_of_Z (z : Z) : float :=
  SF2Prim (binary_normalize prec emax z 0 false).

Definition float_of_nat (n : nat) : float := float_of_Z (Z.of_nat n).

(** [Series.replace(0, pd.NA)] on one value of a float column ([-0.0 == 0]). *)
Definition replace_zero_na (x : float) : cell float :=
  if x =? 0 then NA else Val x.

(** [Series.replace(0, pd.NA)] on one value of an integer column. *)
Definition replace_zero_na_int (n : Z) : cell Z :=
  if (n =? 0)%Z then NA else Val n.

(** [x / c]: any operation with [pd.NA] is [pd.NA]. *)
Definition truediv (x : float) (c : cell float) : cell float :=
  cell_map (fun y => x / y) c.

(** The numeric reading of a cell in a reduction: [pd.NA] is skipped like
    NaN. *)
Definition number_or_nan (c : cell float) : float :=
  match c with
  | NA => nan
  | Val x => x
  end.

(** ** Reductions.  All skip missing values; over no value at all the sum
       is 0 and the mean, the min and the max are NaN. *)

Definition dropna (col : list float) : list float :=
  filter (fun x => negb (is_nan x)) col.

(** *** [Series.sum()] and [Series.mean()].  [pandas.core.nanops] puts 0 in
        the place of each missing value and hands the column to numpy's
        sum, which starts from 0 and adds the column pairwise: fewer than 8
        values in a plain loop, up to 128 values on 8 running lanes, more
        than that split in two halves (the first a multiple of 8 long). *)

Definition fill_missing (col : list float) : list float :=
  map (fun x => if is_nan x then 0 else x) col.

Fixpoint add_lanes (r a : list float) : list float :=
  match r, a with
  | x :: r', y :: a' => (x + y) :: add_lanes r' a'
  | _, _ => []
  end.

(** [for (i = 8; i < n - n % 8; i += 8) r[k] += a[i + k]]: [blocks] rounds
    over the lanes; what is left of the column is returned with them. *)
Fixpoint accumulate_lanes (blocks : nat) (r a : list float)
  : list float * list float :=
  match blocks with
  | O => (r, a)
  | S blocks' => accumulate_lanes blocks' (add_lanes r (firstn 8 a)) (skipn 8 a)
  end.

Definition block_sum (a : list float) : float :=
  let '(r, rest) :=
    accumulate_lanes (List.length a / 8 - 1) (firstn 8 a) (skipn 8 a) in
  match r with
  | [r0; r1; r2; r3; r4; r5; r6; r7] =>
      fold_left add rest (((r0 + r1) + (r2 + r3)) + ((r4 + r5) + (r6 + r7)))
  | _ => fold_left add a 0
  end.

(** The recursion halves the column; [fuel] bounds its depth, and the
    length of the column is always enough (lemma [pairwise_sum_fuel]). *)
Fixpoint pairwise_sum (fuel : nat) (a : list float) : float :=
  let n := List.length a in
  if (n <? 8)%nat then fold_left add a 0
  else if (n <=? 128)%nat then block_sum a
  else match fuel with
       | O => block_sum a
       | S fuel' =>
           let n2 := (n / 2 - (n / 2) mod 8)%nat in
           pairwise_sum fuel' (firstn n2 a) + pairwise_sum fuel' (skipn n2 a)
       end.

Definition series_sum (col : list float) : float :=
  0 + pairwise_sum (List.length col) (fill_missing col).

Definition series_mean (col : list float) : float :=
  match List.length (dropna col) with
  | O => nan
  | count => series_sum col / float_of_nat count
  end.

(** *** The [sum] and [mean] of a group ([group_sum] and [group_mean] of
        [pandas/_libs/groupby.pyx]): one pass over the rows of the group
        with a running sum and a running compensation (Kahan summation);
        a compensation that has become NaN is put back to 0. *)

Definition kahan_step (acc : float * float) (val : float) : float * float :=
  let '(sumx, compensation) := acc in
  let y := val - compensation in
  let t := sumx + y in
  let c := t - sumx - y in
  (t, if is_nan c then 0 else c).

Definition group_sum (col : list float) : float :=
  fst (fold_left kahan_step (dropna col) (0, 0)).

Definition group_mean (col : list float) : float :=
  match List.length (dropna col) with
  | O => nan
  | nobs => group_sum col / float_of_nat nobs
  end.

Definition reduce_with (pick : float -> float -> bool) (col : list float) : float :=
  match dropna col with
  | [] => nan
  | x :: rest => fold_left (fun acc y => if pick y acc then y else acc) rest x
  end.

Definition series_min (col : list float) : float := reduce_with ltb col.
Definition series_max (col : list float) : float := reduce_with (fun y acc => acc <? y) col.

(** ** [DataFrame.groupby(key)]: one group per distinct key, keys in
       ascending order, rows of a group in frame order *)

Section GroupBy.
Context {A : Type}.

Fixpoint group_insert (k : string) (a : A) (groups : list (string * list A))
  : list (string * list A) :=
  match groups with
  | [] => [(k, [a])]
  | (k', g) :: rest =>
      match String.compare k k' with
      | Lt => (k, [a]) :: groups
      | Eq => (k', (g ++ [a])%list) :: rest
      | Gt => (k', g) :: group_insert k a rest
      end
  end.

Definition groupby (key : A -> string) (df : list A) : list (string * list A) :=
  fold_left (fun groups r => group_insert (key r) r groups) df [].

(** ** [DataFrame.sort_values(by)]: insertion sort, ties kept in frame
       order *)

Fixpoint sort_insert (before : A -> A -> bool) (a : A) (sorted : list A) : list A :=
  match sorted with
  | [] => [a]
  | b :: rest =>
      if before b a then b :: sort_insert before a rest else a :: sorted
  end.

Definition sort_values (before : A -> A -> bool) (df : list A) : list A :=
  fold_left (fun sorted a => sort_insert before a sorted) df [].

End GroupBy.

(** The two orders of the script: a timestamp column, descending; a float
    column, ascending with NaN last.  [before b a] says that [b] stays in
    front of a row [a] that comes later in the frame. *)
Definition descending (x_b x_a : timestamp) : bool := (x_a <=? x_b)%Z.
Definition ascending_na_last (x_b x_a : float) : bool :=
  is_nan x_a || (x_b <=? x_a).

(** ** Evaluation of reductions that a chart's axis domain asks for.
       A computation returns its value together with the reductions it
       evaluated, each with the length of the column reduced. *)

Inductive reduction : Type :=
| ReduceMin (len : nat)
| ReduceMax (len : nat).

Definition traced (A : Type) : Type := (A * list reduction)%type.

Definition ret {A : Type} (a : A) : traced A := (a, []).

Definition bind {A B : Type} (m : traced A) (k : A -> traced B) : traced B :=
  let (a, t1) := m in
  let (b, t2) := k a in
  (b, (t1 ++ t2)%list).

Definition value {A : Type} (m : traced A) : A := fst m.
Definition evaluated {A : Type} (m : traced A) : list reduction := snd m.

Definition eval_min (col : list float) : traced float :=
  (series_min col, [ReduceMin (List.length col)]).

Definition eval_max (col : list float) : traced float :=
  (series_max col, [ReduceMax (List.length col)]).

(** A min or max over a column of no rows was evaluated. *)
Definition reduces_empty {A : Type} (m : traced A) : Prop :=
  In (ReduceMin 0) (evaluated m) \/ In (ReduceMax 0) (evaluated m).

End Pandas.

Import Pandas.

Notation "x <- m ;; k" := (bind m (fun x => k))
  (at level 61, m at next level, right associativity).

(** The date pair chosen in a [st.date_input] range widget. *)
Definition date_range := (date * date)%type.

Definition in_range (dr : date_range) (t : timestamp) : bool :=
  between (to_datetime (fst dr)) (to_datetime (snd dr)) t.

(** * Tab 1: Datacenter Efficiency *)

Module Tab1.

(** A row of [GOLD.DATACENTER_EFFICIENCY]. *)
Record row : Type := {
  DATACENTER_ID : string;
  TIME_WINDOW : timestamp;
  TOTAL_POWER_KW : float;
  COOLING_KW : float;
  PUE : float;
  EFFICIENCY : float
}.

(** The metric cards of [datacenter_dashboard]. *)
Record kpis : Type := {
  Average_PUE : float;
  Average_Efficiency : float;
  Total_Power : float;
  Total_Cooling : float
}.

Definition datacenter_dashboard (df : list row) : kpis :=
  {| Average_PUE := series_mean (map PUE df);
     Average_Efficiency := series_mean (map EFFICIENCY df);
     Total_Power := series_sum (map TOTAL_POWER_KW df);
     Total_Cooling := series_sum (map COOLING_KW df) |}.

(** The script's variables in this tab. *)
Record env : Type := {
  df_dc : list row;
  cards : kpis
}.

(** [df_dc = session.sql(query_dc).to_pandas()] *)
Definition fetch (table : list row) (e : env) : env :=
  {| df_dc := table; cards := cards e |}.

(** [df_dc = df_dc[isin(selected_dc) & between(date_range[0], date_range[1])]] *)
Definition apply_filters (selected_dc : list string) (dr : date_range) (e : env) : env :=
  {| df_dc := filter (fun r => isin selected_dc (DATACENTER_ID r)
                               && in_range dr (TIME_WINDOW r)) (df_dc e);
     cards := cards e |}.

(** [datacenter_dashboard(df_dc)] *)
Definition show_dashboard (e : env) : env :=
  {| df_dc := df_dc e; cards := datacenter_dashboard (df_dc e) |}.

Definition run (table : list row) (selected_dc : list string) (dr : date_range)
    (e : env) : env :=
  show_dashboard (apply_filters selected_dc dr (fetch table e)).

End Tab1.

(** * Tab 2: Facility Operations *)

Module Tab2.

(** A row of [GOLD.FACILITY_SUMMARY] joined to [GOLD.DIM_FACILITY]. *)
Record row : Type := {
  FACILITY_ID : string;
  TIME_WINDOW : timestamp;
  TOTAL_POWER_KW : float;
  AVG_TEMP_C : float;
  RACKS_ACTIVE : Z;
  PUE : float;
  DATACENTER_ID : string
}.

(** The radio "Filter by:" with the selection of the widget it shows. *)
Inductive filter_type : Type :=
| Datacenter (selected_dc : string)
| Facility (selected_fac : list string).

Definition filter_entity (ft : filter_type) (df : list row) : list row :=
  match ft with
  | Datacenter selected_dc =>
      filter (fun r => String.eqb (DATACENTER_ID r) selected_dc) df
  | Facility selected_fac =>
      filter (fun r => isin selected_fac (FACILITY_ID r)) df
  end.

Definition filter_dates (dr : date_range) (df : list row) : list row :=
  filter (fun r => in_range dr (TIME_WINDOW r)) df.

(** The frame [facility_perf]: one row per group, with the derived column. *)
Module Perf.
Record row : Type := {
  FACILITY_ID : string;
  TOTAL_POWER_KW : float;
  AVG_TEMP_C : float;
  RACKS_ACTIVE : float;
  PUE : float;
  AVG_POWER_PER_RACK : cell float
}.
End Perf.

(** [.agg({TOTAL_POWER_KW: sum, AVG_TEMP_C: mean, RACKS_ACTIVE: mean, PUE: mean})]
    on one group, then
    [AVG_POWER_PER_RACK = TOTAL_POWER_KW / RACKS_ACTIVE.replace(0, pd.NA)]. *)
Definition aggregate (g : string * list row) : Perf.row :=
  let total := group_sum (map TOTAL_POWER_KW (snd g)) in
  let racks := group_mean (map (fun r => float_of_Z (RACKS_ACTIVE r)) (snd g)) in
  {| Perf.FACILITY_ID := fst g;
     Perf.TOTAL_POWER_KW := total;
     Perf.AVG_TEMP_C := group_mean (map AVG_TEMP_C (snd g));
     Perf.RACKS_ACTIVE := racks;
     Perf.PUE := group_mean (map PUE (snd g));
     Perf.AVG_POWER_PER_RACK := truediv total (replace_zero_na racks) |}.

Definition facility_performance (df_summary : list row) : list Perf.row :=
  map aggregate (groupby FACILITY_ID df_summary).

(** The column [df_fac["AVG_POWER_PER_RACK"]], row by row. *)
Definition power_per_rack (r : row) : cell float :=
  truediv (TOTAL_POWER_KW r)
          (cell_map float_of_Z (replace_zero_na_int (RACKS_ACTIVE r))).

(** The y domains of [power_chart] and [temp_chart]. *)
Definition power_chart_domain (col : list (cell float)) : traced (float * float) :=
  lo <- eval_min (map number_or_nan col) ;;
  hi <- eval_max (map number_or_nan col) ;;
  ret (lo * 0.9, hi * 1.05).

Definition temp_chart_domain (df : list row) : traced (float * float) :=
  lo <- eval_min (map AVG_TEMP_C df) ;;
  hi <- eval_max (map AVG_TEMP_C df) ;;
  ret (lo - 1, hi + 1).

Definition classify_efficiency (pue : float) : string :=
  if pue <? 1.3 then "Excellent"
  else if pue <? 1.6 then "Good"
  else if pue <? 2.0 then "Moderate"
  else "Poor".

(** The frame [pue_summary] with its rating column. *)
Module Rating.
Record row : Type := {
  FACILITY_ID : string;
  avg_pue : float;
  Efficiency_Rating : string
}.
End Rating.

Definition rate (g : string * list row) : Rating.row :=
  let avg := group_mean (map PUE (snd g)) in
  {| Rating.FACILITY_ID := fst g;
     Rating.avg_pue := avg;
     Rating.Efficiency_Rating := classify_efficiency avg |}.

Definition pue_ratings (df : list row) : list Rating.row :=
  sort_values
    (fun b a => ascending_na_last (Rating.avg_pue b) (Rating.avg_pue a))
    (map rate (groupby FACILITY_ID df)).

(** The script's variables in this tab; the column added to [df_fac] is
    kept beside it, row for row. *)
Record env : Type := {
  df_fac : list row;
  df_fac_AVG_POWER_PER_RACK : list (cell float);
  df_summary : list row;
  facility_perf : list Perf.row;
  pue_summary : list Rating.row;
  power_domain : traced (float * float);
  temp_domain : traced (float * float)
}.

Definition set_df_fac (v : list row) (e : env) : env :=
  {| df_fac := v;
     df_fac_AVG_POWER_PER_RACK := df_fac_AVG_POWER_PER_RACK e;
     df_summary := df_summary e;
     facility_perf := facility_perf e;
     pue_summary := pue_summary e;
     power_domain := power_domain e;
     temp_domain := temp_domain e |}.

Definition set_df_summary (v : list row) (e : env) : env :=
  {| df_fac := df_fac e;
     df_fac_AVG_POWER_PER_RACK := df_fac_AVG_POWER_PER_RACK e;
     df_summary := v;
     facility_perf := facility_perf e;
     pue_summary := pue_summary e;
     power_domain := power_domain e;
     temp_domain := temp_domain e |}.

Definition set_facility_perf (v : list Perf.row) (e : env) : env :=
  {| df_fac := df_fac e;
     df_fac_AVG_POWER_PER_RACK := df_fac_AVG_POWER_PER_RACK e;
     df_summary := df_summary e;
     facility_perf := v;
     pue_summary := pue_summary e;
     power_domain := power_domain e;
     temp_domain := temp_domain e |}.

Definition set_AVG_POWER_PER_RACK (v : list (cell float)) (e : env) : env :=
  {| df_fac := df_fac e;
     df_fac_AVG_POWER_PER_RACK := v;
     df_summary := df_summary e;
     facility_perf := facility_perf e;
     pue_summary := pue_summary e;
     power_domain := power_domain e;
     temp_domain := temp_domain e |}.

Definition set_domains (p t : traced (float * float)) (e : env) : env :=
  {| df_fac := df_fac e;
     df_fac_AVG_POWER_PER_RACK := df_fac_AVG_POWER_PER_RACK e;
     df_summary := df_summary e;
     facility_perf := facility_perf e;
     pue_summary := pue_summary e;
     power_domain := p;
     temp_domain := t |}.

Definition set_pue_summary (v : list Rating.row) (e : env) : env :=
  {| df_fac := df_fac e;
     df_fac_AVG_POWER_PER_RACK := df_fac_AVG_POWER_PER_RACK e;
     df_summary := df_summary e;
     facility_perf := facility_perf e;
     pue_summary := v;
     power_domain := power_domain e;
     temp_domain := temp_domain e |}.

(** The statements of the tab, in script order. *)
Definition statements (table : list row) (ft : filter_type) (dr : date_range)
  : list (env -> env) :=
  [ (* df_fac = session.sql(query_fac).to_pandas() *)
    (fun e => set_df_fac table e);
    (* df_fac = df_fac[DATACENTER_ID == selected_dc] or [FACILITY_ID.isin(selected_fac)] *)
    (fun e => set_df_fac (filter_entity ft (df_fac e)) e);
    (* df_fac = df_fac[TIME_WINDOW.between(date_range[0], date_range[1])] *)
    (fun e => set_df_fac (filter_dates dr (df_fac e)) e);
    (* df_summary = df_fac.copy() *)
    (fun e => set_df_summary (df_fac e) e);
    (* df_summary = df_summary[TIME_WINDOW.between(date_range[0], date_range[1])] *)
    (fun e => set_df_summary (filter_dates dr (df_summary e)) e);
    (* facility_perf = df_summary.groupby("FACILITY_ID").agg(...), with its column *)
    (fun e => set_facility_perf (facility_performance (df_summary e)) e);
    (* df_fac["AVG_POWER_PER_RACK"] = TOTAL_POWER_KW / RACKS_ACTIVE.replace(0, pd.NA) *)
    (fun e => set_AVG_POWER_PER_RACK (map power_per_rack (df_fac e)) e);
    (* the scales of power_chart and temp_chart *)
    (fun e => set_domains (power_chart_domain (df_fac_AVG_POWER_PER_RACK e))
                          (temp_chart_domain (df_fac e)) e);
    (* pue_summary = df_fac.groupby("FACILITY_ID").agg(avg_pue).sort_values("avg_pue"),
       with its rating column *)
    (fun e => set_pue_summary (pue_ratings (df_fac e)) e) ].

Definition run (table : list row) (ft : filter_type) (dr : date_range) (e : env) : env :=
  fold_left (fun e' stmt => stmt e') (statements table ft dr) e.

End Tab2.

(** * Tab 3: Rack Health and Anomalies *)

Module Tab3.

(** A row of [GOLD.RACK_PERFORMANCE]. *)
Record row : Type := {
  FACILITY_ID : string;
  RACK_ID : string;
  TIME_WINDOW : timestamp;
  AVG_TEMP_C : float;
  AVG_POWER_KW : float;
  EFFICIENCY : float;
  PUE : float
}.

Definition filter_dates (dr : date_range) (df : list row) : list row :=
  filter (fun r => in_range dr (TIME_WINDOW r)) df.

(** [(AVG_TEMP_C > 30) | (EFFICIENCY < 0.62)] *)
Definition anomalous (r : row) : bool :=
  (30 <? AVG_TEMP_C r) || (EFFICIENCY r <? 0.62).

(** The columns kept in the alerts frame. *)
Module Alert.
Record row : Type := {
  FACILITY_ID : string;
  RACK_ID : string;
  TIME_WINDOW : timestamp;
  AVG_TEMP_C : float;
  EFFICIENCY : float;
  PUE : float
}.
End Alert.

Definition select_columns (r : row) : Alert.row :=
  {| Alert.FACILITY_ID := FACILITY_ID r;
     Alert.RACK_ID := RACK_ID r;
     Alert.TIME_WINDOW := TIME_WINDOW r;
     Alert.AVG_TEMP_C := AVG_TEMP_C r;
     Alert.EFFICIENCY := EFFICIENCY r;
     Alert.PUE := PUE r |}.

Definition anomaly_alerts (df : list row) : list Alert.row :=
  map select_columns (filter anomalous df).

(** What the page shows in the alerts section. *)
Inductive element : Type :=
| dataframe (rows : list Alert.row)
| info (body : string).

Definition show_alerts (alerts : list Alert.row) : element :=
  if (0 <? List.length alerts)%nat
  then dataframe
         (sort_values
            (fun b a => descending (Alert.TIME_WINDOW b) (Alert.TIME_WINDOW a))
            alerts)
  else info "No anomalies detected for the selected date range.".

(** The frame [kpi_summary]. *)
Module Kpi.
Record row : Type := {
  Facility_ID : string;
  Avg_Temp : float;
  Avg_Power : float;
  Avg_Efficiency : float;
  Avg_PUE : float
}.
End Kpi.

Definition aggregate (g : string * list row) : Kpi.row :=
  {| Kpi.Facility_ID := fst g;
     Kpi.Avg_Temp := group_mean (map AVG_TEMP_C (snd g));
     Kpi.Avg_Power := group_mean (map AVG_POWER_KW (snd g));
     Kpi.Avg_Efficiency := group_mean (map EFFICIENCY (snd g));
     Kpi.Avg_PUE := group_mean (map PUE (snd g)) |}.

Definition kpi_by_facility (df : list row) : list Kpi.row :=
  map aggregate (groupby FACILITY_ID df).

Definition filter_facilities (selected_facilities : list string) (df : list row)
  : list row :=
  filter (fun r => isin selected_facilities (FACILITY_ID r)) df.

(** [float(df[col].min()) if len(df) else 0.0], and the same for max with
    1.0: the reduction is evaluated only when the frame has rows. *)
Definition guarded (reduce : list float -> traced float) (default : float)
    (column : row -> float) (df : list row) : traced float :=
  if (0 <? List.length df)%nat then reduce (map column df) else ret default.

Definition temp_scale (df : list row) : traced (float * float) :=
  temp_min <- guarded eval_min 0.0 AVG_TEMP_C df ;;
  temp_max <- guarded eval_max 1.0 AVG_TEMP_C df ;;
  ret (temp_min - 1, temp_max + 1).

Definition eff_scale (df : list row) : traced (float * float) :=
  eff_min <- guarded eval_min 0.0 EFFICIENCY df ;;
  eff_max <- guarded eval_max 1.0 EFFICIENCY df ;;
  ret (eff_min - 0.05, eff_max + 0.05).

(** The script's variables in this tab. *)
Record env : Type := {
  df_rack : list row;
  df_rack_filtered : list row;
  alerts : list Alert.row;
  alerts_section : element;
  kpi_summary : list Kpi.row;
  df_fac_filtered : list row;
  temp_domain : traced (float * float);
  eff_domain : traced (float * float)
}.

Definition set_df_rack (v : list row) (e : env) : env :=
  {| df_rack := v;
     df_rack_filtered := df_rack_filtered e;
     alerts := alerts e;
     alerts_section := alerts_section e;
     kpi_summary := kpi_summary e;
     df_fac_filtered := df_fac_filtered e;
     temp_domain := temp_domain e;
     eff_domain := eff_domain e |}.

Definition set_df_rack_filtered (v : list row) (e : env) : env :=
  {| df_rack := df_rack e;
     df_rack_filtered := v;
     alerts := alerts e;
     alerts_section := alerts_section e;
     kpi_summary := kpi_summary e;
     df_fac_filtered := df_fac_filtered e;
     temp_domain := temp_domain e;
     eff_domain := eff_domain e |}.

Definition set_alerts (v : list Alert.row) (e : env) : env :=
  {| df_rack := df_rack e;
     df_rack_filtered := df_rack_filtered e;
     alerts := v;
     alerts_section := alerts_section e;
     kpi_summary := kpi_summary e;
     df_fac_filtered := df_fac_filtered e;
     temp_domain := temp_domain e;
     eff_domain := eff_domain e |}.

Definition set_alerts_section (v : element) (e : env) : env :=
  {| df_rack := df_rack e;
     df_rack_filtered := df_rack_filtered e;
     alerts := alerts e;
     alerts_section := v;
     kpi_summary := kpi_summary e;
     df_fac_filtered := df_fac_filtered e;
     temp_domain := temp_domain e;
     eff_domain := eff_domain e |}.

Definition set_kpi_summary (v : list Kpi.row) (e : env) : env :=
  {| df_rack := df_rack e;
     df_rack_filtered := df_rack_filtered e;
     alerts := alerts e;
     alerts_section := alerts_section e;
     kpi_summary := v;
     df_fac_filtered := df_fac_filtered e;
     temp_domain := temp_domain e;
     eff_domain := eff_domain e |}.

Definition set_df_fac_filtered (v : list row) (e : env) : env :=
  {| df_rack := df_rack e;
     df_rack_filtered := df_rack_filtered e;
     alerts := alerts e;
     alerts_section := alerts_section e;
     kpi_summary := kpi_summary e;
     df_fac_filtered := v;
     temp_domain := temp_domain e;
     eff_domain := eff_domain e |}.

Definition set_domains (t f : traced (float * float)) (e : env) : env :=
  {| df_rack := df_rack e;
     df_rack_filtered := df_rack_filtered e;
     alerts := alerts e;
     alerts_section := alerts_section e;
     kpi_summary := kpi_summary e;
     df_fac_filtered := df_fac_filtered e;
     temp_domain := t;
     eff_domain := f |}.

(** The statements of the tab, in script order. *)
Definition statements (table : list row) (dr : date_range)
    (selected_facilities : list string) : list (env -> env) :=
  [ (* df_rack = session.sql(query_rack).to_pandas() *)
    (fun e => set_df_rack table e);
    (* df_rack_filtered = df_rack[TIME_WINDOW.between(date_range[0], date_range[1])] *)
    (fun e => set_df_rack_filtered (filter_dates dr (df_rack e)) e);
    (* alerts = df_rack_filtered[(AVG_TEMP_C > 30) | (EFFICIENCY < 0.62)][[...]] *)
    (fun e => set_alerts (anomaly_alerts (df_rack_filtered e)) e);
    (* if len(alerts) > 0: st.dataframe(...) else: st.info(...) *)
    (fun e => set_alerts_section (show_alerts (alerts e)) e);
    (* kpi_summary = df_rack_filtered.groupby("FACILITY_ID").agg(...).reset_index() *)
    (fun e => set_kpi_summary (kpi_by_facility (df_rack_filtered e)) e);
    (* df_fac_filtered = df_rack_filtered[FACILITY_ID.isin(selected_facilities)] *)
    (fun e => set_df_fac_filtered
                (filter_facilities selected_facilities (df_rack_filtered e)) e);
    (* the scales of chart_temp and chart_eff_trend *)
    (fun e => set_domains (temp_scale (df_fac_filtered e))
                          (eff_scale (df_fac_filtered e)) e) ].

Definition run (table : list row) (dr : date_range)
    (selected_facilities : list string) (e : env) : env :=
  fold_left (fun e' stmt => stmt e') (statements table dr selected_facilities) e.

End Tab3.


(** * The rest of the script: widget options and defaults, previews *)

Module Widgets.

(** [Series.unique().tolist()]: the distinct values, in order of first
    appearance. *)
Definition unique (col : list string) : list string :=
  fold_left (fun seen x => if isin seen x then seen else (seen ++ [x])%list) col [].

(** [Timestamp.date()]: the day a timestamp falls in. *)
Definition to_date (t : timestamp) : date := (t / 86400000000000)%Z.

(** [Series.min()] and [Series.max()] of a timestamp column; [None] is
    [NaT], the answer over no rows. *)
Definition timestamp_min (col : list timestamp) : option timestamp :=
  match col with
  | [] => None
  | t :: rest => Some (fold_left Z.min rest t)
  end.

Definition timestamp_max (col : list timestamp) : option timestamp :=
  match col with
  | [] => None
  | t :: rest => Some (fold_left Z.max rest t)
  end.

(** The value a date-range widget starts from:
    [[col.min().date(), col.max().date()]]. *)
Definition default_date_range (col : list timestamp) : option date_range :=
  match timestamp_min col, timestamp_max col with
  | Some first, Some last => Some (to_date first, to_date last)
  | _, _ => None
  end.

(** Tab 1: the options of "Select Datacenter(s)" (all selected at first) and
    the first value of "Select Date Range", both from the fetched frame. *)
Definition tab1_datacenters (df_dc : list Tab1.row) : list string :=
  unique (map Tab1.DATACENTER_ID df_dc).

Definition tab1_default_dates (df_dc : list Tab1.row) : option date_range :=
  default_date_range (map Tab1.TIME_WINDOW df_dc).

(** Tab 2: the options of the two entity widgets come from the fetched
    frame; the date range starts from the frame the entity filter left. *)
Definition tab2_datacenters (df_fac : list Tab2.row) : list string :=
  unique (map Tab2.DATACENTER_ID df_fac).

Definition tab2_facilities (df_fac : list Tab2.row) : list string :=
  unique (map Tab2.FACILITY_ID df_fac).

Definition tab2_default_dates (ft : Tab2.filter_type) (df_fac : list Tab2.row)
  : option date_range :=
  default_date_range (map Tab2.TIME_WINDOW (Tab2.filter_entity ft df_fac)).

(** [show_legend = len(df_fac["FACILITY_ID"].unique()) > 1] *)
Definition show_legend (df_fac : list Tab2.row) : bool :=
  (1 <? List.length (unique (map Tab2.FACILITY_ID df_fac)))%nat.

(** Tab 3: the date range starts from the fetched frame; the options of
    "Select Facility" (all selected at first) come from the date-filtered
    frame. *)
Definition tab3_default_dates (df_rack : list Tab3.row) : option date_range :=
  default_date_range (map Tab3.TIME_WINDOW df_rack).

Definition tab3_facilities (df_rack_filtered : list Tab3.row) : list string :=
  unique (map Tab3.FACILITY_ID df_rack_filtered).

End Widgets.

(** The function [facility_dashboard] and the table preview that ends tab 2:
    [df.sort_values("TIME_WINDOW", ascending=False).head(50)]. *)
Module FacilityDashboard.

Definition preview (df : list Tab2.row) : list Tab2.row :=
  firstn 50
    (sort_values (fun b a => descending (Tab2.TIME_WINDOW b) (Tab2.TIME_WINDOW a)) df).

Record kpis : Type := {
  Average_Power : float;
  Average_Temperature : float;
  Average_PUE : float;
  Average_Active_Racks : float
}.

Record page : Type := {
  cards : kpis;
  table : list Tab2.row
}.

Definition facility_dashboard (df : list Tab2.row) : page :=
  {| cards :=
       {| Average_Power := series_mean (map Tab2.TOTAL_POWER_KW df);
          Average_Temperature := series_mean (map Tab2.AVG_TEMP_C df);
          Average_PUE := series_mean (map Tab2.PUE df);
          Average_Active_Racks :=
            series_mean (map (fun r => float_of_Z (Tab2.RACKS_ACTIVE r)) df) |};
     table := preview df |}.

(** [target_pue = 1.5], the benchmark line of the efficiency chart. *)
Definition target_pue : float := 1.5.

End FacilityDashboard.

(** * Notions used to state and prove the properties *)

(** ** A total order behind the comparison of binary64 values: every value
       but NaN gets a key, and comparing two values is comparing their keys
       lexicographically. *)

Definition lexcmp (k1 k2 : Z * Z * Z) : comparison :=
  let '(a1, b1, c1) := k1 in
  let '(a2, b2, c2) := k2 in
  match (a1 ?= a2)%Z with
  | Eq => match (b1 ?= b2)%Z with Eq => (c1 ?= c2)%Z | r => r end
  | r => r
  end.

Definition fkey (f : spec_float) : option (Z * Z * Z) :=
  match f with
  | S754_nan => None
  | S754_infinity true => Some (-2, 0, 0)%Z
  | S754_infinity false => Some (2, 0, 0)%Z
  | S754_zero _ => Some (0, 0, 0)%Z
  | S754_finite true m e => Some (-1, - e, Zneg m)%Z
  | S754_finite false m e => Some (1, e, Zpos m)%Z
  end.

(** ** Groups *)

(** The rows filed under key [k]. *)
Definition group_of {A : Type} (k : string) (gs : list (string * list A)) : list A :=
  match find (fun kg => String.eqb (fst kg) k) gs with
  | Some kg => snd kg
  | None => []
  end.

(** What the groups hold after the rows of [df] have been filed. *)
Record grouped {A : Type} (key : A -> string) (df : list A)
    (gs : list (string * list A)) : Prop := {
  grouped_sorted : StronglySorted String_as_OT.lt (map fst gs);
  grouped_nonempty : Forall (fun kg => snd kg <> []) gs;
  grouped_rows : forall k, group_of k gs = filter (fun r => String.eqb (key r) k) df
}.

(** ** The order of the keys, as a proposition *)

Definition lexlt (k1 k2 : Z * Z * Z) : Prop :=
  let '(a1, b1, c1) := k1 in
  let '(a2, b2, c2) := k2 in
  (a1 < a2 \/ (a1 = a2 /\ (b1 < b2 \/ (b1 = b2 /\ c1 < c2))))%Z.

(** ** The ratings, from best to worst *)

Definition rating_rank (label : string) : nat :=
  if String.eqb label "Excellent" then 0
  else if String.eqb label "Good" then 1
  else if String.eqb label "Moderate" then 2
  else 3.

(** ** Example frames *)

(** The frame of the group-by example: two facilities, two rows each, with
    10 and 20 for one and 30 and 40 for the other in every measured column. *)
Definition two_facilities : list Tab2.row :=
  [ Tab2.Build_row "F02" 0%Z 30 30 30%Z 30 "DC1";
    Tab2.Build_row "F01" 0%Z 10 10 10%Z 10 "DC1";
    Tab2.Build_row "F02" 1%Z 40 40 40%Z 40 "DC1";
    Tab2.Build_row "F01" 1%Z 20 20 20%Z 20 "DC1" ].

Definition two_facilities_racks : list Tab3.row :=
  [ Tab3.Build_row "F02" "R1" 0%Z 30 30 30 30;
    Tab3.Build_row "F01" "R1" 0%Z 10 10 10 10;
    Tab3.Build_row "F02" "R1" 1%Z 40 40 40 40;
    Tab3.Build_row "F01" "R1" 1%Z 20 20 20 20 ].

(** * Properties *)

(** ** The order of binary64 values *)

Module FloatOrder.

Lemma SFcompare_fkey (x y : spec_float) :
  SFcompare x y =
  match fkey x, fkey y with
  | Some kx, Some ky => Some (lexcmp kx ky)
  | _, _ => None
  end.
Proof.
  destruct x as [sx|sx| |sx mx ex], y as [sy|sy| |sy my ey];
    try destruct sx; try destruct sy; try reflexivity; simpl.
  rewrite Z.compare_opp, (Z.compare_antisym ex ey).
  destruct (ex ?= ey)%Z; reflexivity.
Qed.

Lemma lexcmp_Lt_trans k1 k2 k3 :
  lexcmp k1 k2 = Lt -> lexcmp k2 k3 <> Gt -> lexcmp k1 k3 = Lt.
Proof.
  destruct k1 as [[a1 b1] c1], k2 as [[a2 b2] c2], k3 as [[a3 b3] c3]. simpl.
  destruct (Z.compare_spec a1 a2), (Z.compare_spec a2 a3), (Z.compare_spec a1 a3);
    try lia; try congruence;
  destruct (Z.compare_spec b1 b2), (Z.compare_spec b2 b3), (Z.compare_spec b1 b3);
    try lia; try congruence;
  destruct (Z.compare_spec c1 c2), (Z.compare_spec c2 c3), (Z.compare_spec c1 c3);
    try lia; try congruence.
Qed.

Lemma lexcmp_antisym k1 k2 : lexcmp k2 k1 = CompOpp (lexcmp k1 k2).
Proof.
  destruct k1 as [[a1 b1] c1], k2 as [[a2 b2] c2]. simpl.
  rewrite (Z.compare_antisym a1 a2), (Z.compare_antisym b1 b2), (Z.compare_antisym c1 c2).
  destruct (a1 ?= a2)%Z, (b1 ?= b2)%Z, (c1 ?= c2)%Z; reflexivity.
Qed.

(** [a <= x] excludes [x < a]: the two tests of a half-open interval. *)
Lemma leb_not_ltb (a x : float) : (a <=? x) = true -> (x <? a) = false.
Proof.
  rewrite leb_spec, ltb_spec. unfold SFleb, SFltb.
  rewrite !SFcompare_fkey.
  destruct (fkey (Prim2SF a)) as [ka|], (fkey (Prim2SF x)) as [kx|]; try reflexivity.
  rewrite (lexcmp_antisym ka kx).
  destruct (lexcmp ka kx); simpl; congruence.
Qed.

(** A value at or above [a] is not below any [b < a]. *)
Lemma ltb_leb_not_ltb (b a x : float) :
  (b <? a) = true -> (a <=? x) = true -> (x <? b) = false.
Proof.
  rewrite leb_spec, !ltb_spec. unfold SFleb, SFltb.
  rewrite !SFcompare_fkey.
  destruct (fkey (Prim2SF a)) as [ka|], (fkey (Prim2SF x)) as [kx|],
    (fkey (Prim2SF b)) as [kb|]; try reflexivity; try discriminate.
  intros Hba Hax.
  assert (H : lexcmp kb kx = Lt).
  { apply (lexcmp_Lt_trans kb ka kx).
    - destruct (lexcmp kb ka); congruence.
    - destruct (lexcmp ka kx); congruence. }
  rewrite (lexcmp_antisym kb kx), H. reflexivity.
Qed.

End FloatOrder.

(** ** Filters *)

Section FilterFacts.
Context {A : Type}.

Lemma filter_idempotent (f : A -> bool) (l : list A) :
  filter f (filter f l) = filter f l.
Proof.
  induction l as [|a l IH]; simpl; [reflexivity|].
  destruct (f a) eqn:E; simpl; [rewrite E, IH|]; auto.
Qed.

Lemma filter_snoc (f : A -> bool) (l : list A) (a : A) :
  filter f (l ++ [a]) = (filter f l ++ (if f a then [a] else []))%list.
Proof.
  rewrite filter_app. simpl. destruct (f a); reflexivity.
Qed.

End FilterFacts.

Lemma in_range_bounds (dr : date_range) (t : timestamp) :
  in_range dr t = true <->
  (to_datetime (fst dr) <= t <= to_datetime (snd dr))%Z.
Proof.
  unfold in_range, between.
  rewrite andb_true_iff, !Z.leb_le. tauto.
Qed.

Lemma isin_In (values : list string) (x : string) :
  isin values x = true <-> In x values.
Proof.
  unfold isin. rewrite existsb_exists. split.
  - intros [y [Hy E]]. apply String.eqb_eq in E. now subst.
  - intros H. exists x. split; [assumption|apply String.eqb_refl].
Qed.

(** ** Group-by *)

Section GroupByFacts.
Context {A : Type}.
Implicit Types (k : string) (a : A) (gs : list (string * list A)).

Local Abbreviation str_lt := String_as_OT.lt.

Lemma compare_Lt_lt k k' : String.compare k k' = Lt -> str_lt k k'.
Proof. apply String_as_OT.cmp_lt. Qed.

Lemma compare_Gt_lt k k' : String.compare k k' = Gt -> str_lt k' k.
Proof.
  intros H. apply String_as_OT.cmp_lt. unfold String_as_OT.cmp.
  rewrite String.compare_antisym, H. reflexivity.
Qed.

Lemma str_lt_neq k k' : str_lt k k' -> k <> k'.
Proof. apply String_as_OT.lt_not_eq. Qed.

Lemma group_insert_keys k a gs k' :
  In k' (map fst (group_insert k a gs)) <-> k' = k \/ In k' (map fst gs).
Proof.
  induction gs as [|[k0 g] gs IH]; simpl.
  - intuition congruence.
  - destruct (String.compare k k0) eqn:E; simpl.
    + apply String.compare_eq_iff in E. subst. intuition congruence.
    + intuition congruence.
    + rewrite IH. intuition congruence.
Qed.

Lemma group_insert_sorted k a gs :
  StronglySorted str_lt (map fst gs) ->
  StronglySorted str_lt (map fst (group_insert k a gs)).
Proof.
  induction gs as [|[k0 g] gs IH]; simpl; intros S.
  - repeat constructor.
  - inversion S as [|? ? S' F]; subst.
    destruct (String.compare k k0) eqn:E; simpl.
    + constructor; assumption.
    + apply compare_Lt_lt in E. constructor; [assumption|].
      constructor; [assumption|].
      eapply Forall_impl; [|exact F].
      intros k1 H. eapply String_as_OT.lt_trans; eassumption.
    + apply compare_Gt_lt in E. constructor; [auto|].
      apply Forall_forall. intros k1 H.
      apply group_insert_keys in H. destruct H as [->|H]; [assumption|].
      rewrite Forall_forall in F. auto.
Qed.

Lemma group_of_absent k gs :
  ~ In k (map fst gs) -> group_of k gs = [].
Proof.
  unfold group_of. intros H.
  destruct (find _ gs) as [kg|] eqn:F; [|reflexivity].
  apply find_some in F. destruct F as [I E].
  apply String.eqb_eq in E. exfalso. apply H. subst. now apply in_map.
Qed.

Lemma group_of_cons k k0 (g : list A) gs :
  group_of k ((k0, g) :: gs) = if String.eqb k0 k then g else group_of k gs.
Proof. unfold group_of. simpl. destruct (String.eqb k0 k); reflexivity. Qed.

Lemma group_insert_group_of k a gs k' :
  StronglySorted str_lt (map fst gs) ->
  group_of k' (group_insert k a gs) =
  (group_of k' gs ++ (if String.eqb k k' then [a] else []))%list.
Proof.
  induction gs as [|[k0 g] gs IH]; simpl; intros S.
  - rewrite group_of_cons. unfold group_of. simpl.
    destruct (String.eqb k k'); reflexivity.
  - inversion S as [|? ? S' F]; subst.
    destruct (String.compare k k0) eqn:E.
    + apply String.compare_eq_iff in E. subst k0.
      rewrite !group_of_cons.
      destruct (String.eqb k k') eqn:K; [reflexivity|].
      now rewrite app_nil_r.
    + apply compare_Lt_lt in E.
      rewrite (group_of_cons k' k).
      destruct (String.eqb k k') eqn:K; [|now rewrite app_nil_r].
      apply String.eqb_eq in K. subst k'.
      rewrite group_of_absent; [reflexivity|].
      simpl. intros [->|H].
      * now apply str_lt_neq in E.
      * rewrite Forall_forall in F. apply F in H.
        apply (str_lt_neq k k); [|reflexivity].
        eapply String_as_OT.lt_trans; eassumption.
    + apply compare_Gt_lt in E.
      rewrite !group_of_cons.
      destruct (String.eqb k0 k') eqn:K0; [|auto].
      apply String.eqb_eq in K0. subst k'.
      destruct (String.eqb k k0) eqn:K; [|now rewrite app_nil_r].
      apply String.eqb_eq in K. subst k0.
      now apply str_lt_neq in E.
Qed.

Lemma group_insert_nonempty k a gs :
  Forall (fun kg => snd kg <> []) gs ->
  Forall (fun kg => snd kg <> []) (group_insert k a gs).
Proof.
  induction gs as [|[k0 g] gs IH]; simpl; intros F.
  - repeat constructor. discriminate.
  - inversion F; subst.
    destruct (String.compare k k0); constructor; simpl; auto.
    + now destruct g.
    + discriminate.
Qed.

Variable key : A -> string.

Lemma grouped_nil : grouped key [] [].
Proof. split; simpl; auto; constructor. Qed.

Lemma grouped_snoc df gs a :
  grouped key df gs -> grouped key (df ++ [a]) (group_insert (key a) a gs).
Proof.
  intros [S N R]. split.
  - now apply group_insert_sorted.
  - now apply group_insert_nonempty.
  - intros k. rewrite group_insert_group_of by assumption.
    now rewrite R, filter_snoc.
Qed.

Lemma groupby_grouped df : grouped key df (groupby key df).
Proof.
  unfold groupby.
  assert (G : forall l done gs, grouped key done gs ->
            grouped key (done ++ l)
              (fold_left (fun groups r => group_insert (key r) r groups) l gs)).
  { induction l as [|a l IH]; simpl; intros done gs H.
    - now rewrite app_nil_r.
    - replace (done ++ a :: l)%list with ((done ++ [a]) ++ l)%list
        by (rewrite <- app_assoc; reflexivity).
      apply IH. now apply grouped_snoc. }
  apply (G df [] []), grouped_nil.
Qed.

Lemma sorted_keys_NoDup (ks : list string) :
  StronglySorted str_lt ks -> NoDup ks.
Proof.
  induction 1 as [|k ks S IH F]; constructor; [|assumption].
  intros I. rewrite Forall_forall in F. apply F in I.
  now apply (str_lt_neq k k).
Qed.

Lemma group_of_member k (g : list A) gs :
  NoDup (map fst gs) -> In (k, g) gs -> group_of k gs = g.
Proof.
  induction gs as [|[k0 g0] gs IH]; simpl; intros N I; [contradiction|].
  inversion N as [|? ? NI N']; subst.
  rewrite group_of_cons. destruct I as [E|I].
  - inversion E; subst. now rewrite String.eqb_refl.
  - destruct (String.eqb k0 k) eqn:K; [|auto].
    apply String.eqb_eq in K. subst k0.
    exfalso. apply NI. change k with (fst (k, g)). now apply in_map.
Qed.

(** The groups of [groupby]: distinct keys, exactly the keys that occur,
    each with the rows of that key in frame order. *)
Lemma groupby_keys_NoDup df : NoDup (map fst (groupby key df)).
Proof. apply sorted_keys_NoDup, (grouped_sorted _ _ _ (groupby_grouped df)). Qed.

Lemma groupby_rows df k (g : list A) :
  In (k, g) (groupby key df) ->
  g = filter (fun r => String.eqb (key r) k) df.
Proof.
  intros I. rewrite <- (grouped_rows _ _ _ (groupby_grouped df)).
  symmetry. apply group_of_member; [apply groupby_keys_NoDup|assumption].
Qed.

Lemma groupby_keys df k :
  In k (map fst (groupby key df)) <-> In k (map key df).
Proof.
  pose proof (groupby_grouped df) as [S N R]. split.
  - rewrite in_map_iff. intros [[k0 g] [E I]]. simpl in E. subst k0.
    pose proof (groupby_rows df k g I) as Hg.
    rewrite Forall_forall in N. specialize (N _ I). simpl in N.
    destruct g as [|r g]; [congruence|].
    assert (Hr : In r (filter (fun r => String.eqb (key r) k) df))
      by (rewrite <- Hg; now left).
    apply filter_In in Hr. destruct Hr as [Hr E].
    apply String.eqb_eq in E. subst k. now apply in_map.
  - rewrite in_map_iff. intros [r [E I]]. subst k.
    destruct (in_dec string_dec (key r) (map fst (groupby key df))) as [H|H];
      [assumption|].
    apply group_of_absent in H. rewrite R in H.
    assert (Hr : In r (filter (fun r0 => String.eqb (key r0) (key r)) df))
      by (apply filter_In; split; [assumption|apply String.eqb_refl]).
    rewrite H in Hr. contradiction.
Qed.

End GroupByFacts.

(** ** Sorting keeps the rows *)

Section SortFacts.
Context {A : Type} (before : A -> A -> bool).

Lemma sort_insert_perm (a : A) (sorted : list A) :
  Permutation (a :: sorted) (sort_insert before a sorted).
Proof.
  induction sorted as [|b rest IH]; simpl; [reflexivity|].
  destruct (before b a); [|reflexivity].
  rewrite perm_swap. now apply perm_skip.
Qed.

Lemma sort_values_perm (df : list A) : Permutation df (sort_values before df).
Proof.
  unfold sort_values.
  assert (G : forall l acc,
            Permutation (l ++ acc)
              (fold_left (fun sorted a => sort_insert before a sorted) l acc)).
  { induction l as [|a l IH]; intros acc; simpl; [reflexivity|].
    rewrite <- IH. rewrite <- sort_insert_perm.
    apply Permutation_middle. }
  specialize (G df []). now rewrite app_nil_r in G.
Qed.

End SortFacts.

(** ** What a run of each tab leaves in its variables *)

Lemma tab1_run_df_dc table selected_dc dr e :
  Tab1.df_dc (Tab1.run table selected_dc dr e) =
  filter (fun r => isin selected_dc (Tab1.DATACENTER_ID r)
                   && in_range dr (Tab1.TIME_WINDOW r)) table.
Proof. reflexivity. Qed.

Lemma tab2_run_df_fac table ft dr e :
  Tab2.df_fac (Tab2.run table ft dr e) =
  Tab2.filter_dates dr (Tab2.filter_entity ft table).
Proof. reflexivity. Qed.

Lemma tab2_run_df_summary table ft dr e :
  Tab2.df_summary (Tab2.run table ft dr e) =
  Tab2.filter_dates dr (Tab2.filter_dates dr (Tab2.filter_entity ft table)).
Proof. reflexivity. Qed.

Lemma tab2_run_facility_perf table ft dr e :
  Tab2.facility_perf (Tab2.run table ft dr e) =
  Tab2.facility_performance (Tab2.df_summary (Tab2.run table ft dr e)).
Proof. reflexivity. Qed.

Lemma tab3_run_df_rack_filtered table dr sel e :
  Tab3.df_rack_filtered (Tab3.run table dr sel e) = Tab3.filter_dates dr table.
Proof. reflexivity. Qed.

Lemma tab3_run_alerts table dr sel e :
  Tab3.alerts (Tab3.run table dr sel e) =
  Tab3.anomaly_alerts (Tab3.df_rack_filtered (Tab3.run table dr sel e)).
Proof. reflexivity. Qed.

Lemma tab3_run_alerts_section table dr sel e :
  Tab3.alerts_section (Tab3.run table dr sel e) =
  Tab3.show_alerts (Tab3.alerts (Tab3.run table dr sel e)).
Proof. reflexivity. Qed.

(** ** The alerts frame and what the page shows of it *)

Lemma alert_listed_iff (df : list Tab3.row) (r : Tab3.row) :
  In r df ->
  (In (Tab3.select_columns r) (Tab3.anomaly_alerts df) <->
   Tab3.anomalous r = true).
Proof.
  intros Hr. unfold Tab3.anomaly_alerts. split.
  - intros H. apply in_map_iff in H. destruct H as [r' [E H]].
    apply filter_In in H. destruct H as [_ H].
    unfold Tab3.anomalous in *.
    apply (f_equal Tab3.Alert.AVG_TEMP_C) in E as Et.
    apply (f_equal Tab3.Alert.EFFICIENCY) in E as Ee.
    simpl in Et, Ee. now rewrite <- Et, <- Ee.
  - intros H. apply in_map. apply filter_In. now split.
Qed.

Lemma show_alerts_rows (alerts : list Tab3.Alert.row) (x : Tab3.Alert.row) :
  (exists rows, Tab3.show_alerts alerts = Tab3.dataframe rows /\ In x rows) <->
  In x alerts.
Proof.
  unfold Tab3.show_alerts. destruct alerts as [|a alerts].
  - simpl. split; [intros [rows [E _]]; discriminate|contradiction].
  - simpl List.length. simpl Nat.ltb. cbv iota. split.
    + intros [rows [E I]]. inversion E; subst.
      eapply Permutation_in; [|exact I].
      apply Permutation_sym, sort_values_perm.
    + intros I. eexists. split; [reflexivity|].
      eapply Permutation_in; [|exact I]. apply sort_values_perm.
Qed.

(** ** Aggregation over the groups *)

Lemma dropna_complete (col : list float) :
  Forall (fun x => is_nan x = false) col -> dropna col = col.
Proof.
  unfold dropna. induction 1 as [|x col H F IH]; simpl; [reflexivity|].
  now rewrite H, IH.
Qed.

Section Aggregated.
Context {A B : Type} (key : A -> string) (agg : string * list A -> B)
        (key_of : B -> string).
Hypothesis key_of_agg : forall g, key_of (agg g) = fst g.

Lemma aggregated_keys df :
  map key_of (map agg (groupby key df)) = map fst (groupby key df).
Proof.
  rewrite map_map. apply map_ext. intros g. apply key_of_agg.
Qed.

Lemma aggregated_row df o :
  In o (map agg (groupby key df)) ->
  o = agg (key_of o, filter (fun r => String.eqb (key r) (key_of o)) df).
Proof.
  intros H. apply in_map_iff in H. destruct H as [[k g] [<- I]].
  rewrite key_of_agg. simpl. now rewrite <- (groupby_rows key df k g I).
Qed.

End Aggregated.

(** ** Axis domains *)

Lemma guarded_never_empty reduce default column df :
  (forall col, evaluated (reduce col) = [ReduceMin (List.length col)] \/
               evaluated (reduce col) = [ReduceMax (List.length col)]) ->
  ~ reduces_empty (Tab3.guarded reduce default column df).
Proof.
  intros R. unfold Tab3.guarded, reduces_empty.
  destruct df as [|r df]; simpl.
  - tauto.
  - destruct (R (column r :: map column df)) as [-> | ->]; simpl;
      intros [[E|[]]|[E|[]]]; discriminate.
Qed.

Lemma bind_evaluated {A B : Type} (m : traced A) (k : A -> traced B) :
  evaluated (bind m k) = (evaluated m ++ evaluated (k (value m)))%list.
Proof.
  unfold bind, evaluated, value. destruct m as [a t1]. simpl.
  destruct (k a) as [b t2]. reflexivity.
Qed.

Lemma scale_never_empty column pad df :
  ~ reduces_empty
      (lo <- Tab3.guarded eval_min 0.0 column df ;;
       hi <- Tab3.guarded eval_max 1.0 column df ;;
       ret (lo - pad, hi + pad)).
Proof.
  unfold reduces_empty. rewrite !bind_evaluated. simpl.
  rewrite app_nil_r, !in_app_iff.
  pose proof (guarded_never_empty eval_min 0.0 column df) as Hmin.
  pose proof (guarded_never_empty eval_max 1.0 column df) as Hmax.
  unfold reduces_empty in Hmin, Hmax.
  assert (Rmin : forall col,
            evaluated (eval_min col) = [ReduceMin (List.length col)] \/
            evaluated (eval_min col) = [ReduceMax (List.length col)])
    by (intros; left; reflexivity).
  assert (Rmax : forall col,
            evaluated (eval_max col) = [ReduceMin (List.length col)] \/
            evaluated (eval_max col) = [ReduceMax (List.length col)])
    by (intros; right; reflexivity).
  specialize (Hmin Rmin). specialize (Hmax Rmax). tauto.
Qed.

(** * The claims *)

(** C1: [classify_efficiency] is a total function of one float: it answers
    "Excellent" below 1.3, "Good" on [1.3, 1.6), "Moderate" on [1.6, 2.0)
    and "Poor" from 2.0 on; every answer is one of these four labels, and
    the six boundary values 1.2999, 1.3, 1.5999, 1.6, 1.9999 and 2.0 land in
    "Excellent", "Good", "Good", "Moderate", "Moderate" and "Poor". *)
Theorem classify_efficiency_buckets :
  (forall pue, (pue <? 1.3) = true ->
     Tab2.classify_efficiency pue = "Excellent") /\
  (forall pue, (1.3 <=? pue) = true -> (pue <? 1.6) = true ->
     Tab2.classify_efficiency pue = "Good") /\
  (forall pue, (1.6 <=? pue) = true -> (pue <? 2.0) = true ->
     Tab2.classify_efficiency pue = "Moderate") /\
  (forall pue, (2.0 <=? pue) = true ->
     Tab2.classify_efficiency pue = "Poor") /\
  (forall pue,
     In (Tab2.classify_efficiency pue) ["Excellent"; "Good"; "Moderate"; "Poor"]) /\
  Tab2.classify_efficiency 1.2999 = "Excellent" /\
  Tab2.classify_efficiency 1.3 = "Good" /\
  Tab2.classify_efficiency 1.5999 = "Good" /\
  Tab2.classify_efficiency 1.6 = "Moderate" /\
  Tab2.classify_efficiency 1.9999 = "Moderate" /\
  Tab2.classify_efficiency 2.0 = "Poor".
Proof.
  repeat apply conj; try reflexivity; intros pue; unfold Tab2.classify_efficiency.
  - intros ->. reflexivity.
  - intros H1 H2. rewrite (FloatOrder.leb_not_ltb _ _ H1), H2. reflexivity.
  - intros H1 H2.
    rewrite (FloatOrder.ltb_leb_not_ltb 1.3 1.6 pue eq_refl H1).
    rewrite (FloatOrder.leb_not_ltb _ _ H1), H2. reflexivity.
  - intros H1.
    rewrite (FloatOrder.ltb_leb_not_ltb 1.3 2.0 pue eq_refl H1).
    rewrite (FloatOrder.ltb_leb_not_ltb 1.6 2.0 pue eq_refl H1).
    rewrite (FloatOrder.leb_not_ltb _ _ H1). reflexivity.
  - destruct (pue <? 1.3); [simpl; auto|].
    destruct (pue <? 1.6); [simpl; auto|].
    destruct (pue <? 2.0); simpl; auto.
Qed.

(** A PUE of 1.45 lies in [1.3, 1.6) and is rated "Good". *)
Lemma classify_efficiency_buckets_witness :
  Tab2.classify_efficiency 1.45 = "Good".
Proof.
  apply (proj1 (proj2 classify_efficiency_buckets) 1.45); reflexivity.
Defined.

(** C2: a record of the date-filtered rack frame appears in the alerts frame,
    and in the alerts table the page shows, exactly when [AVG_TEMP_C > 30]
    or [EFFICIENCY < 0.62]; temp 35 with efficiency 0.9 is flagged, temp 20
    with efficiency 0.5 is flagged, temp 20 with efficiency 0.9 is not. *)
Theorem alerts_iff_hot_or_inefficient :
  (forall table dr sel e r,
     In r (Tab3.df_rack_filtered (Tab3.run table dr sel e)) ->
     (In (Tab3.select_columns r) (Tab3.alerts (Tab3.run table dr sel e)) <->
      (30 <? Tab3.AVG_TEMP_C r) = true \/ (Tab3.EFFICIENCY r <? 0.62) = true)) /\
  (forall table dr sel e r,
     In r (Tab3.df_rack_filtered (Tab3.run table dr sel e)) ->
     ((exists rows,
         Tab3.alerts_section (Tab3.run table dr sel e) = Tab3.dataframe rows /\
         In (Tab3.select_columns r) rows) <->
      (30 <? Tab3.AVG_TEMP_C r) = true \/ (Tab3.EFFICIENCY r <? 0.62) = true)) /\
  (forall fid rid t power pue,
     Tab3.anomalous (Tab3.Build_row fid rid t 35 power 0.9 pue) = true /\
     Tab3.anomalous (Tab3.Build_row fid rid t 20 power 0.5 pue) = true /\
     Tab3.anomalous (Tab3.Build_row fid rid t 20 power 0.9 pue) = false).
Proof.
  repeat apply conj.
  - intros table dr sel e r Hr.
    rewrite tab3_run_alerts, <- orb_true_iff.
    now apply alert_listed_iff.
  - intros table dr sel e r Hr.
    rewrite tab3_run_alerts_section, show_alerts_rows.
    rewrite tab3_run_alerts, <- orb_true_iff.
    now apply alert_listed_iff.
  - intros; repeat split; reflexivity.
Qed.

(** A hot rack inside the chosen dates is listed in the alerts. *)
Lemma alerts_iff_hot_or_inefficient_witness :
  let r := Tab3.Build_row "F01" "R1" (to_datetime 3%Z) 35 4 0.9 1.4 in
  In (Tab3.select_columns r)
     (Tab3.anomaly_alerts (Tab3.filter_dates (1, 5)%Z [r])).
Proof.
  intros r.
  apply (proj1 alerts_iff_hot_or_inefficient [r] (1, 5)%Z []
           (Tab3.Build_env [] [] [] (Tab3.info "") [] [] (ret (0, 0)) (ret (0, 0))) r).
  - simpl. left. reflexivity.
  - left. reflexivity.
Defined.

(** C3: average power per rack is [TOTAL_POWER_KW / RACKS_ACTIVE] whenever
    the denominator is not zero (100 over 5 racks is exactly 20.0) and is
    the missing value [pd.NA] -- no number at all, so neither zero nor
    infinity -- whenever it is zero, both in the per-facility summary and in
    the per-row column of [df_fac]; a denominator that reaches the division
    is never zero. *)
Theorem avg_power_per_rack_guarded :
  (forall df o, In o (Tab2.facility_performance df) ->
     Tab2.Perf.AVG_POWER_PER_RACK o =
     if Tab2.Perf.RACKS_ACTIVE o =? 0 then NA
     else Val (Tab2.Perf.TOTAL_POWER_KW o / Tab2.Perf.RACKS_ACTIVE o)) /\
  (forall r,
     Tab2.power_per_rack r =
     if (Tab2.RACKS_ACTIVE r =? 0)%Z then NA
     else Val (Tab2.TOTAL_POWER_KW r / float_of_Z (Tab2.RACKS_ACTIVE r))) /\
  (forall total racks x,
     (racks =? 0) = true -> truediv total (replace_zero_na racks) <> Val x) /\
  (forall racks y, replace_zero_na racks = Val y -> (y =? 0) = false) /\
  (forall n m, replace_zero_na_int n = Val m -> m <> 0%Z) /\
  (forall fid t temp pue dc x,
     Tab2.power_per_rack (Tab2.Build_row fid t 100 temp 0 pue dc) <> Val x) /\
  (forall fid t temp pue dc,
     Tab2.power_per_rack (Tab2.Build_row fid t 100 temp 5 pue dc) = Val 20) /\
  (forall fid t temp pue dc,
     map Tab2.Perf.AVG_POWER_PER_RACK
       (Tab2.facility_performance [Tab2.Build_row fid t 100 temp 5 pue dc])
     = [Val 20]).
Proof.
  repeat apply conj.
  - intros df o H. unfold Tab2.facility_performance in H.
    apply in_map_iff in H. destruct H as [g [<- _]].
    unfold Tab2.aggregate, truediv, replace_zero_na. simpl.
    destruct (_ =? 0); reflexivity.
  - intros r. unfold Tab2.power_per_rack, truediv, replace_zero_na_int.
    destruct (_ =? 0)%Z; reflexivity.
  - intros total racks x H. unfold replace_zero_na. rewrite H. discriminate.
  - intros racks y. unfold replace_zero_na.
    destruct (racks =? 0) eqn:E; [discriminate|].
    intros H. inversion H. now subst.
  - intros n m. unfold replace_zero_na_int.
    destruct (n =? 0)%Z eqn:E; [discriminate|].
    intros H. inversion H. subst. now apply Z.eqb_neq.
  - intros. discriminate.
  - intros. reflexivity.
  - intros. reflexivity.
Qed.

(** A mean of -0.0 active racks counts as zero: the quotient is missing,
    not infinite. *)
Lemma avg_power_per_rack_guarded_witness :
  truediv 100 (replace_zero_na (-0)) <> Val infinity.
Proof.
  apply (proj1 (proj2 (proj2 avg_power_per_rack_guarded)) 100 (-0) infinity).
  reflexivity.
Defined.

(** C4: the date-range filter keeps exactly the rows whose [TIME_WINDOW]
    lies in the closed interval from the start date to the end date (in
    tab 1 and tab 2 together with the entity selection, which is a separate
    conjunct); a row stamped with the start date or with the end date is
    kept, a row before the start or after the end is dropped. *)
Theorem date_filter_closed_interval :
  (forall table dr sel e r,
     In r (Tab3.df_rack_filtered (Tab3.run table dr sel e)) <->
     In r table /\
     (to_datetime (fst dr) <= Tab3.TIME_WINDOW r <= to_datetime (snd dr))%Z) /\
  (forall table selected_dc dr e r,
     In r (Tab1.df_dc (Tab1.run table selected_dc dr e)) <->
     In r table /\ In (Tab1.DATACENTER_ID r) selected_dc /\
     (to_datetime (fst dr) <= Tab1.TIME_WINDOW r <= to_datetime (snd dr))%Z) /\
  (forall table ft dr e r,
     In r (Tab2.df_fac (Tab2.run table ft dr e)) <->
     In r (Tab2.filter_entity ft table) /\
     (to_datetime (fst dr) <= Tab2.TIME_WINDOW r <= to_datetime (snd dr))%Z) /\
  (forall dr, (fst dr <= snd dr)%Z ->
     in_range dr (to_datetime (fst dr)) = true /\
     in_range dr (to_datetime (snd dr)) = true) /\
  (forall dr t,
     (t < to_datetime (fst dr))%Z \/ (to_datetime (snd dr) < t)%Z ->
     in_range dr t = false).
Proof.
  repeat apply conj.
  - intros table dr sel e r.
    rewrite tab3_run_df_rack_filtered. unfold Tab3.filter_dates.
    rewrite filter_In, in_range_bounds. tauto.
  - intros table selected_dc dr e r.
    rewrite tab1_run_df_dc, filter_In, andb_true_iff, isin_In, in_range_bounds.
    tauto.
  - intros table ft dr e r.
    rewrite tab2_run_df_fac. unfold Tab2.filter_dates.
    rewrite filter_In, in_range_bounds. tauto.
  - intros [start stop] H. simpl in H.
    split; apply in_range_bounds; unfold to_datetime; simpl; lia.
  - intros [start stop] t H. simpl in H.
    destruct (in_range (start, stop) t) eqn:E; [|reflexivity].
    apply in_range_bounds in E. simpl in E. lia.
Qed.

(** With the range 1 to 5, midnight of day 1 and midnight of day 5 pass. *)
Lemma date_filter_closed_interval_witness :
  in_range (1, 5)%Z (to_datetime 1%Z) = true /\
  in_range (1, 5)%Z (to_datetime 5%Z) = true.
Proof.
  apply (proj1 (proj2 (proj2 (proj2 date_filter_closed_interval))) (1, 5)%Z).
  simpl. lia.
Defined.

(** C5: the facility performance frame has exactly one row per facility
    that occurs in its input, and in that row total power is the group sum,
    and temperature, active racks and PUE are the group means, over the
    rows of that facility; the rack KPI frame is built the same way with
    means.  The group mean is the group sum over the number of values
    present.  For two facilities with rows 10, 20 and 30, 40 the sums are
    30 and 70 and the means 15 and 35; for rows 0.1, 0.2, 0.3 the sum is
    0.6 and the mean 0.19999999999999998. *)
Theorem facility_perf_groupwise :
  (forall df, NoDup (map Tab2.Perf.FACILITY_ID (Tab2.facility_performance df))) /\
  (forall df k,
     In k (map Tab2.Perf.FACILITY_ID (Tab2.facility_performance df)) <->
     In k (map Tab2.FACILITY_ID df)) /\
  (forall df o, In o (Tab2.facility_performance df) ->
     let rows :=
       filter (fun r => String.eqb (Tab2.FACILITY_ID r) (Tab2.Perf.FACILITY_ID o)) df in
     rows <> [] /\
     Tab2.Perf.TOTAL_POWER_KW o = group_sum (map Tab2.TOTAL_POWER_KW rows) /\
     Tab2.Perf.AVG_TEMP_C o = group_mean (map Tab2.AVG_TEMP_C rows) /\
     Tab2.Perf.RACKS_ACTIVE o =
       group_mean (map (fun r => float_of_Z (Tab2.RACKS_ACTIVE r)) rows) /\
     Tab2.Perf.PUE o = group_mean (map Tab2.PUE rows)) /\
  (forall df, NoDup (map Tab3.Kpi.Facility_ID (Tab3.kpi_by_facility df))) /\
  (forall df k,
     In k (map Tab3.Kpi.Facility_ID (Tab3.kpi_by_facility df)) <->
     In k (map Tab3.FACILITY_ID df)) /\
  (forall df o, In o (Tab3.kpi_by_facility df) ->
     let rows :=
       filter (fun r => String.eqb (Tab3.FACILITY_ID r) (Tab3.Kpi.Facility_ID o)) df in
     rows <> [] /\
     Tab3.Kpi.Avg_Temp o = group_mean (map Tab3.AVG_TEMP_C rows) /\
     Tab3.Kpi.Avg_Power o = group_mean (map Tab3.AVG_POWER_KW rows) /\
     Tab3.Kpi.Avg_Efficiency o = group_mean (map Tab3.EFFICIENCY rows) /\
     Tab3.Kpi.Avg_PUE o = group_mean (map Tab3.PUE rows)) /\
  (forall col, Forall (fun x => is_nan x = false) col -> col <> [] ->
     group_mean col = group_sum col / float_of_nat (List.length col)) /\
  Tab2.facility_performance two_facilities =
    [ Tab2.Perf.Build_row "F01" 30 15 15 15 (Val 2);
      Tab2.Perf.Build_row "F02" 70 35 35 35 (Val 2) ] /\
  Tab3.kpi_by_facility two_facilities_racks =
    [ Tab3.Kpi.Build_row "F01" 15 15 15 15;
      Tab3.Kpi.Build_row "F02" 35 35 35 35 ] /\
  (forall t1 t2 t3 temp racks pue dc,
     map Tab2.Perf.TOTAL_POWER_KW
       (Tab2.facility_performance
          [ Tab2.Build_row "F01" t1 0.1 temp racks pue dc;
            Tab2.Build_row "F01" t2 0.2 temp racks pue dc;
            Tab2.Build_row "F01" t3 0.3 temp racks pue dc ]) = [0.6]) /\
  (forall t1 t2 t3 rack temp eff pue,
     map Tab3.Kpi.Avg_Power
       (Tab3.kpi_by_facility
          [ Tab3.Build_row "F01" rack t1 temp 0.1 eff pue;
            Tab3.Build_row "F01" rack t2 temp 0.2 eff pue;
            Tab3.Build_row "F01" rack t3 temp 0.3 eff pue ])
     = [0.19999999999999998]).
Proof.
  assert (Rows : forall (A : Type) (key : A -> string) (df : list A) k,
            In k (map fst (groupby key df)) ->
            filter (fun r => String.eqb (key r) k) df <> []).
  { intros A key df k H. apply (proj1 (groupby_keys key df k)) in H.
    apply in_map_iff in H.
    destruct H as [r [E I]]. intros N.
    assert (Ir : In r (filter (fun r0 => String.eqb (key r0) k) df))
      by (apply filter_In; split; [assumption|now apply String.eqb_eq]).
    rewrite N in Ir. contradiction. }
  repeat apply conj.
  - intros df. unfold Tab2.facility_performance.
    rewrite (aggregated_keys Tab2.FACILITY_ID) by reflexivity.
    apply groupby_keys_NoDup.
  - intros df k. unfold Tab2.facility_performance.
    rewrite (aggregated_keys Tab2.FACILITY_ID) by reflexivity.
    apply groupby_keys.
  - intros df o H rows. split.
    + apply (Rows _ Tab2.FACILITY_ID).
      rewrite <- (aggregated_keys Tab2.FACILITY_ID Tab2.aggregate
                    Tab2.Perf.FACILITY_ID) by reflexivity.
      now apply in_map.
    + apply (aggregated_row Tab2.FACILITY_ID Tab2.aggregate Tab2.Perf.FACILITY_ID) in H;
        [|reflexivity].
      fold rows in H. rewrite H. simpl. auto.
  - intros df. unfold Tab3.kpi_by_facility.
    rewrite (aggregated_keys Tab3.FACILITY_ID) by reflexivity.
    apply groupby_keys_NoDup.
  - intros df k. unfold Tab3.kpi_by_facility.
    rewrite (aggregated_keys Tab3.FACILITY_ID) by reflexivity.
    apply groupby_keys.
  - intros df o H rows. split.
    + apply (Rows _ Tab3.FACILITY_ID).
      rewrite <- (aggregated_keys Tab3.FACILITY_ID Tab3.aggregate
                    Tab3.Kpi.Facility_ID) by reflexivity.
      now apply in_map.
    + apply (aggregated_row Tab3.FACILITY_ID Tab3.aggregate Tab3.Kpi.Facility_ID) in H;
        [|reflexivity].
      fold rows in H. rewrite H. simpl. auto.
  - intros col H N. unfold group_mean.
    rewrite (dropna_complete col H).
    destruct col; [congruence|reflexivity].
  - vm_compute. reflexivity.
  - vm_compute. reflexivity.
  - intros. vm_compute. reflexivity.
  - intros. vm_compute. reflexivity.
Qed.

(** On the example frame the row of facility F01 carries the sum 30. *)
Lemma facility_perf_groupwise_witness :
  Tab2.Perf.TOTAL_POWER_KW (Tab2.Perf.Build_row "F01" 30 15 15 15 (Val 2)) =
  group_sum
    (map Tab2.TOTAL_POWER_KW
       (filter (fun r => String.eqb (Tab2.FACILITY_ID r) "F01") two_facilities)).
Proof.
  apply (proj1 (proj2 (proj2 facility_perf_groupwise)) two_facilities
           (Tab2.Perf.Build_row "F01" 30 15 15 15 (Val 2))).
  vm_compute. left. reflexivity.
Defined.

(** C6 as stated fails: with no rows left, the temperature and efficiency
    trend scales of tab 3 do not reduce an empty column. *)
Lemma rack_trend_scales_are_guarded :
  ~ (reduces_empty (Tab3.temp_scale []) /\
     reduces_empty (Tab3.eff_scale []) /\
     reduces_empty (Tab2.power_chart_domain [])).
Proof.
  intros [H _]. unfold reduces_empty in H. simpl in H.
  destruct H as [[]|[]].
Qed.

(** C6, amended: when the tab-2 filters leave no rows, the power-per-rack
    scale (and the temperature scale beside it) evaluates min and max over
    the empty column, with no test in front, and the domain is NaN to NaN;
    the rack-trend scales of tab 3 test the frame's length first: on an
    empty frame they evaluate no reduction and fall back to the domains
    [0.0 - 1, 1.0 + 1] and [0.0 - 0.05, 1.0 + 0.05], and on any frame they
    never reduce an empty column. *)
Theorem empty_frame_axis_domains :
  (forall table ft dr e,
     Tab2.df_fac (Tab2.run table ft dr e) = [] ->
     Tab2.power_domain (Tab2.run table ft dr e)
       = ((nan, nan), [ReduceMin 0; ReduceMax 0]) /\
     Tab2.temp_domain (Tab2.run table ft dr e)
       = ((nan, nan), [ReduceMin 0; ReduceMax 0]) /\
     reduces_empty (Tab2.power_domain (Tab2.run table ft dr e)) /\
     reduces_empty (Tab2.temp_domain (Tab2.run table ft dr e))) /\
  (forall table dr sel e,
     Tab3.df_fac_filtered (Tab3.run table dr sel e) = [] ->
     Tab3.temp_domain (Tab3.run table dr sel e) = ((-1, 2), []) /\
     Tab3.eff_domain (Tab3.run table dr sel e) = ((0.0 - 0.05, 1.0 + 0.05), [])) /\
  (forall table dr sel e,
     ~ reduces_empty (Tab3.temp_domain (Tab3.run table dr sel e)) /\
     ~ reduces_empty (Tab3.eff_domain (Tab3.run table dr sel e))).
Proof.
  repeat apply conj.
  - intros table ft dr e H.
    assert (P : Tab2.power_domain (Tab2.run table ft dr e)
                = Tab2.power_chart_domain
                    (map Tab2.power_per_rack (Tab2.df_fac (Tab2.run table ft dr e))))
      by reflexivity.
    assert (T : Tab2.temp_domain (Tab2.run table ft dr e)
                = Tab2.temp_chart_domain (Tab2.df_fac (Tab2.run table ft dr e)))
      by reflexivity.
    rewrite P, T, H. repeat apply conj; try reflexivity.
    + left. simpl. auto.
    + left. simpl. auto.
  - intros table dr sel e H.
    assert (T : Tab3.temp_domain (Tab3.run table dr sel e)
                = Tab3.temp_scale (Tab3.df_fac_filtered (Tab3.run table dr sel e)))
      by reflexivity.
    assert (F : Tab3.eff_domain (Tab3.run table dr sel e)
                = Tab3.eff_scale (Tab3.df_fac_filtered (Tab3.run table dr sel e)))
      by reflexivity.
    rewrite T, F, H. split; reflexivity.
  - intros table dr sel e. split.
    + apply (scale_never_empty Tab3.AVG_TEMP_C 1).
    + apply (scale_never_empty Tab3.EFFICIENCY 0.05).
Qed.

(** A date range that holds none of the rows leaves tab 2 with an empty
    frame, and the power scale then reduces an empty column. *)
Lemma empty_frame_axis_domains_witness :
  reduces_empty
    (Tab2.power_domain
       (Tab2.run two_facilities (Tab2.Facility ["F01"; "F02"]) (5, 6)%Z
          (Tab2.Build_env [] [] [] [] [] (ret (0, 0)) (ret (0, 0))))).
Proof.
  apply (proj1 empty_frame_axis_domains two_facilities
           (Tab2.Facility ["F01"; "F02"]) (5, 6)%Z
           (Tab2.Build_env [] [] [] [] [] (ret (0, 0)) (ret (0, 0)))).
  reflexivity.
Defined.

(** C7: when no row of the date-filtered rack frame is anomalous, the alerts
    section is the message "No anomalies detected for the selected date
    range." (the frame is empty and nothing is evaluated on it); when some
    row is anomalous, the section is the alerts table, holding the alerts
    frame's rows. *)
Theorem alerts_section_cases :
  forall table dr sel e,
    let env := Tab3.run table dr sel e in
    ((forall r, In r (Tab3.df_rack_filtered env) -> Tab3.anomalous r = false) ->
     Tab3.alerts env = [] /\
     Tab3.alerts_section env =
       Tab3.info "No anomalies detected for the selected date range.") /\
    ((exists r, In r (Tab3.df_rack_filtered env) /\ Tab3.anomalous r = true) ->
     exists rows,
       Tab3.alerts_section env = Tab3.dataframe rows /\
       rows <> [] /\ Permutation (Tab3.alerts env) rows).
Proof.
  intros table dr sel e env. subst env.
  rewrite tab3_run_alerts_section, tab3_run_alerts.
  set (df := Tab3.df_rack_filtered (Tab3.run table dr sel e)).
  unfold Tab3.anomaly_alerts, Tab3.show_alerts. split.
  - intros H.
    assert (E : filter Tab3.anomalous df = []).
    { induction df as [|r df IH]; simpl; [reflexivity|].
      rewrite (H r (or_introl eq_refl)). apply IH.
      intros r' I. apply H. now right. }
    rewrite E. split; reflexivity.
  - intros [r [I Hr]].
    assert (I' : In r (filter Tab3.anomalous df)) by (apply filter_In; now split).
    destruct (filter Tab3.anomalous df) as [|r0 rest] eqn:E; [contradiction|].
    simpl List.length. simpl Nat.ltb. cbv iota.
    eexists. split; [reflexivity|]. split.
    + intros N.
      pose proof (sort_values_perm
                    (fun b a => descending (Tab3.Alert.TIME_WINDOW b)
                                           (Tab3.Alert.TIME_WINDOW a))
                    (map Tab3.select_columns (r0 :: rest))) as P.
      rewrite N in P. apply Permutation_sym, Permutation_nil in P. discriminate.
    + apply sort_values_perm.
Qed.

(** A frame with one cool and efficient rack shows the message. *)
Lemma alerts_section_cases_witness :
  Tab3.show_alerts
    (Tab3.anomaly_alerts
       (Tab3.filter_dates (0, 1)%Z [Tab3.Build_row "F01" "R1" 0%Z 20 4 0.9 1.4])) =
  Tab3.info "No anomalies detected for the selected date range.".
Proof.
  apply (proj1 (alerts_section_cases
                  [Tab3.Build_row "F01" "R1" 0%Z 20 4 0.9 1.4] (0, 1)%Z []
                  (Tab3.Build_env [] [] [] (Tab3.info "") [] [] (ret (0, 0)) (ret (0, 0))))).
  simpl. intros r [<-|[]]. reflexivity.
Defined.

(** C8: a run of a tab overwrites every variable from the fetched table and
    the widget selections alone, so what it leaves does not depend on what
    was there before; running the same tab again on the same table and
    selections, from the variables the first run left, leaves the very same
    frames.  The date filter that tab 2 applies a second time, to the copy
    [df_summary], changes nothing. *)
Theorem rerun_identical :
  (forall table selected_dc dr e1 e2,
     Tab1.run table selected_dc dr e1 = Tab1.run table selected_dc dr e2) /\
  (forall table ft dr e1 e2,
     Tab2.run table ft dr e1 = Tab2.run table ft dr e2) /\
  (forall table dr sel e1 e2,
     Tab3.run table dr sel e1 = Tab3.run table dr sel e2) /\
  (forall table selected_dc dr e,
     Tab1.run table selected_dc dr (Tab1.run table selected_dc dr e)
     = Tab1.run table selected_dc dr e) /\
  (forall table ft dr e,
     Tab2.run table ft dr (Tab2.run table ft dr e) = Tab2.run table ft dr e) /\
  (forall table dr sel e,
     Tab3.run table dr sel (Tab3.run table dr sel e) = Tab3.run table dr sel e) /\
  (forall table ft dr e,
     Tab2.df_summary (Tab2.run table ft dr e) = Tab2.df_fac (Tab2.run table ft dr e)).
Proof.
  repeat apply conj; try reflexivity.
  intros table ft dr e.
  rewrite tab2_run_df_summary, tab2_run_df_fac.
  apply filter_idempotent.
Qed.

(** C9: the summary table of tab 2 is aggregated from the frame that went
    through the entity filter and then the date filter, so it does change
    with the facility selection: on the example frame, selecting both
    facilities gives two summary rows and selecting F01 alone gives one. *)
Theorem summary_follows_entity_filter :
  (forall table ft dr e,
     Tab2.facility_perf (Tab2.run table ft dr e) =
     Tab2.facility_performance
       (Tab2.filter_dates dr (Tab2.filter_entity ft table))) /\
  (exists table dr ft1 ft2, forall e,
     Tab2.facility_perf (Tab2.run table ft1 dr e) <>
     Tab2.facility_perf (Tab2.run table ft2 dr e)) /\
  (forall e,
     map Tab2.Perf.FACILITY_ID
       (Tab2.facility_perf
          (Tab2.run two_facilities (Tab2.Facility ["F01"; "F02"]) (0, 1)%Z e))
     = ["F01"; "F02"] /\
     map Tab2.Perf.FACILITY_ID
       (Tab2.facility_perf
          (Tab2.run two_facilities (Tab2.Facility ["F01"]) (0, 1)%Z e))
     = ["F01"]).
Proof.
  repeat apply conj.
  - intros table ft dr e.
    rewrite tab2_run_facility_perf, tab2_run_df_summary.
    unfold Tab2.filter_dates. now rewrite filter_idempotent.
  - exists two_facilities, (0, 1)%Z,
      (Tab2.Facility ["F01"; "F02"]), (Tab2.Facility ["F01"]).
    intros e H. apply (f_equal (@List.length _)) in H.
    vm_compute in H. discriminate.
  - intros e. split; vm_compute; reflexivity.
Qed.

(** C10: in tab 3 the alerts frame, the alerts section and the KPI summary
    are the same for any two facility selections, the table and the date
    range being the same; the selection only reaches [df_fac_filtered]. *)
Theorem alerts_and_kpis_ignore_facility_filter :
  (forall table dr sel1 sel2 e,
     let env1 := Tab3.run table dr sel1 e in
     let env2 := Tab3.run table dr sel2 e in
     Tab3.alerts env1 = Tab3.alerts env2 /\
     Tab3.alerts_section env1 = Tab3.alerts_section env2 /\
     Tab3.kpi_summary env1 = Tab3.kpi_summary env2 /\
     Tab3.df_rack_filtered env1 = Tab3.df_rack_filtered env2) /\
  (forall table dr sel e,
     Tab3.df_fac_filtered (Tab3.run table dr sel e) =
     Tab3.filter_facilities sel (Tab3.df_rack_filtered (Tab3.run table dr sel e))) /\
  (exists table dr sel1 sel2, forall e,
     Tab3.df_fac_filtered (Tab3.run table dr sel1 e) <>
     Tab3.df_fac_filtered (Tab3.run table dr sel2 e)).
Proof.
  repeat apply conj; try reflexivity.
  - intros; repeat split.
  - exists two_facilities_racks, (0, 1)%Z, ["F01"; "F02"], ["F01"].
    intros e H. apply (f_equal (@List.length _)) in H.
    vm_compute in H. discriminate.
Qed.

(** * The operations on small frames *)

Example series_reductions :
  series_sum [10; nan; 20] = 30 /\
  series_mean [10; nan; 20] = 15 /\
  series_min [3; nan; 1; 2] = 1 /\
  series_max [3; nan; 1; 2] = 3 /\
  series_sum [] = 0 /\
  is_nan (series_mean []) = true /\
  is_nan (series_min []) = true.
Proof. repeat apply conj; reflexivity. Qed.

Example groupby_files_rows_under_sorted_keys :
  groupby fst [("b", 1%Z); ("a", 2%Z); ("b", 3%Z); ("c", 4%Z); ("a", 5%Z)] =
  [ ("a", [("a", 2%Z); ("a", 5%Z)]);
    ("b", [("b", 1%Z); ("b", 3%Z)]);
    ("c", [("c", 4%Z)]) ].
Proof. reflexivity. Qed.

Example sort_values_orders :
  sort_values descending [1; 3; 2; 3]%Z = [3; 3; 2; 1]%Z /\
  sort_values ascending_na_last [2; nan; 1.5; 1.2] = [1.2; 1.5; 2; nan].
Proof. split; reflexivity. Qed.

Example pue_ratings_of_example :
  Tab2.pue_ratings two_facilities =
  [ Tab2.Rating.Build_row "F01" 15 "Poor";
    Tab2.Rating.Build_row "F02" 35 "Poor" ].
Proof. vm_compute. reflexivity. Qed.

(** * More of the script *)

(** ** More on the order of binary64 values *)

Module FloatFacts.

Lemma lexcmp_spec k1 k2 :
  CompareSpec (k1 = k2) (lexlt k1 k2) (lexlt k2 k1) (lexcmp k1 k2).
Proof.
  destruct k1 as [[a1 b1] c1], k2 as [[a2 b2] c2]. simpl.
  destruct (Z.compare_spec a1 a2); [|constructor; simpl; lia ..].
  destruct (Z.compare_spec b1 b2); [|constructor; simpl; lia ..].
  destruct (Z.compare_spec c1 c2); constructor; simpl; try lia.
  congruence.
Qed.

Lemma ltb_fkey (x y : float) :
  (x <? y) =
  match fkey (Prim2SF x), fkey (Prim2SF y) with
  | Some kx, Some ky => match lexcmp kx ky with Lt => true | _ => false end
  | _, _ => false
  end.
Proof.
  rewrite ltb_spec. unfold SFltb. rewrite FloatOrder.SFcompare_fkey.
  destruct (fkey (Prim2SF x)), (fkey (Prim2SF y)); reflexivity.
Qed.

Lemma leb_fkey (x y : float) :
  (x <=? y) =
  match fkey (Prim2SF x), fkey (Prim2SF y) with
  | Some kx, Some ky => match lexcmp kx ky with Gt => false | _ => true end
  | _, _ => false
  end.
Proof.
  rewrite leb_spec. unfold SFleb. rewrite FloatOrder.SFcompare_fkey.
  destruct (fkey (Prim2SF x)), (fkey (Prim2SF y)); reflexivity.
Qed.

Lemma is_nan_fkey (x : float) :
  is_nan x = match fkey (Prim2SF x) with Some _ => false | None => true end.
Proof.
  unfold is_nan. rewrite eqb_spec. unfold SFeqb.
  rewrite FloatOrder.SFcompare_fkey.
  destruct (fkey (Prim2SF x)) as [k|]; [|reflexivity].
  destruct (lexcmp_spec k k) as [_|H|H]; [reflexivity| |];
    destruct k as [[a b] c]; simpl in H; lia.
Qed.

(** Case analysis on two floats through their keys. *)
Ltac by_keys :=
  rewrite ?ltb_fkey, ?leb_fkey, ?is_nan_fkey in *;
  repeat match goal with
         | |- context [fkey (Prim2SF ?x)] => destruct (fkey (Prim2SF x)) as [[[? ?] ?]|]
         | H : context [fkey (Prim2SF ?x)] |- _ =>
             destruct (fkey (Prim2SF x)) as [[[? ?] ?]|]
         end;
  try discriminate; try reflexivity;
  repeat match goal with
         | |- context [lexcmp ?a ?b] => destruct (lexcmp_spec a b)
         | H : context [lexcmp ?a ?b] |- _ => destruct (lexcmp_spec a b)
         end;
  try discriminate; try reflexivity;
  repeat match goal with
         | H : (_, _, _) = (_, _, _) |- _ => inversion H; clear H; subst
         end;
  simpl in *; try lia.

Lemma leb_trans (x y z : float) :
  (x <=? y) = true -> (y <=? z) = true -> (x <=? z) = true.
Proof. intros H1 H2. by_keys. Qed.

Lemma leb_ltb_trans (x y z : float) :
  (x <=? y) = true -> (y <? z) = true -> (x <? z) = true.
Proof. intros H1 H2. by_keys. Qed.

Lemma ltb_leb_trans (x y z : float) :
  (x <? y) = true -> (y <=? z) = true -> (x <? z) = true.
Proof. intros H1 H2. by_keys. Qed.

Lemma ltb_leb (x y : float) : (x <? y) = true -> (x <=? y) = true.
Proof. intros H. by_keys. Qed.

Lemma leb_refl (x : float) : is_nan x = false -> (x <=? x) = true.
Proof. intros H. by_keys. Qed.

Lemma not_ltb_leb (x y : float) :
  is_nan x = false -> is_nan y = false -> (y <? x) = false -> (x <=? y) = true.
Proof. intros Hx Hy H. by_keys. Qed.

Lemma leb_numbers (x y : float) :
  (x <=? y) = true -> is_nan x = false /\ is_nan y = false.
Proof. intros H. split; by_keys. Qed.

Lemma ltb_numbers (x y : float) :
  (x <? y) = true -> is_nan x = false /\ is_nan y = false.
Proof. intros H. split; by_keys. Qed.

Lemma nan_not_ltb (x y : float) : is_nan x = true -> (x <? y) = false.
Proof. intros H. by_keys. Qed.

End FloatFacts.

(** ** Options of the select widgets *)

Section UniqueFacts.

Let step (seen : list string) (x : string) : list string :=
  if isin seen x then seen else (seen ++ [x])%list.

Lemma unique_from (col seen : list string) :
  NoDup seen ->
  NoDup (fold_left step col seen) /\
  (forall x, In x (fold_left step col seen) <-> In x seen \/ In x col).
Proof.
  revert seen. induction col as [|y col IH]; simpl; intros seen N.
  - split; [assumption|]. tauto.
  - assert (N' : NoDup (step seen y)).
    { unfold step. destruct (isin seen y) eqn:E; [assumption|].
      apply NoDup_app; [assumption|repeat constructor; simpl; tauto|].
      intros x I [<-|[]]. apply isin_In in I. congruence. }
    destruct (IH _ N') as [N2 I2]. split; [assumption|].
    intros x. rewrite I2. unfold step.
    destruct (isin seen y) eqn:E.
    + apply isin_In in E. intuition (subst; auto).
    + rewrite in_app_iff. simpl. tauto.
Qed.

Lemma unique_NoDup (col : list string) : NoDup (Widgets.unique col).
Proof. apply (unique_from col []). constructor. Qed.

Lemma unique_In (col : list string) (x : string) :
  In x (Widgets.unique col) <-> In x col.
Proof.
  unfold Widgets.unique. fold step.
  rewrite (proj2 (unique_from col [] (NoDup_nil _))). simpl. tauto.
Qed.

End UniqueFacts.

Lemma select_all_keeps_all {A : Type} (key : A -> string) (df : list A) :
  filter (fun r => isin (Widgets.unique (map key df)) (key r)) df = df.
Proof.
  apply forallb_filter_id. apply forallb_forall. intros r I.
  apply isin_In, unique_In. now apply in_map.
Qed.

Lemma two_distinct_iff (u : list string) :
  NoDup u ->
  ((1 <? List.length u)%nat = true <-> exists a b, In a u /\ In b u /\ a <> b).
Proof.
  intros N. rewrite Nat.ltb_lt. split.
  - destruct u as [|a [|b u]]; simpl; try lia. intros _.
    exists a, b. repeat split; auto.
    inversion N as [|? ? NI _]; subst. intros ->. apply NI. now left.
  - intros [a [b [Ia [Ib D]]]].
    destruct u as [|c [|d u]]; simpl in *; try lia; intuition congruence.
Qed.

(** X1: the options of a select widget list every identifier of the frame
    once; tab 3 offers exactly the facilities that have a row inside the
    chosen dates. *)
Theorem widget_options_distinct :
  (forall df, NoDup (Widgets.tab1_datacenters df) /\
     forall d, In d (Widgets.tab1_datacenters df) <->
               exists r, In r df /\ Tab1.DATACENTER_ID r = d) /\
  (forall df, NoDup (Widgets.tab2_facilities df) /\
     forall f, In f (Widgets.tab2_facilities df) <->
               exists r, In r df /\ Tab2.FACILITY_ID r = f) /\
  (forall df, NoDup (Widgets.tab2_datacenters df) /\
     forall d, In d (Widgets.tab2_datacenters df) <->
               exists r, In r df /\ Tab2.DATACENTER_ID r = d) /\
  (forall table dr sel e,
     let env := Tab3.run table dr sel e in
     NoDup (Widgets.tab3_facilities (Tab3.df_rack_filtered env)) /\
     forall f, In f (Widgets.tab3_facilities (Tab3.df_rack_filtered env)) <->
               exists r, In r table /\ in_range dr (Tab3.TIME_WINDOW r) = true /\
                         Tab3.FACILITY_ID r = f).
Proof.
  assert (G : forall (A : Type) (key : A -> string) (df : list A),
            NoDup (Widgets.unique (map key df)) /\
            forall k, In k (Widgets.unique (map key df)) <->
                      exists r, In r df /\ key r = k).
  { intros A key df. split; [apply unique_NoDup|].
    intros k. rewrite unique_In, in_map_iff.
    split; intros [r [H1 H2]]; exists r; tauto. }
  repeat apply conj; try (intros df; apply G).
  intros table dr sel e env. subst env. split; [apply unique_NoDup|].
  intros f. rewrite tab3_run_df_rack_filtered.
  unfold Widgets.tab3_facilities. rewrite (proj2 (G _ Tab3.FACILITY_ID _)).
  unfold Tab3.filter_dates.
  split; intros [r H]; exists r; rewrite filter_In in *; tauto.
Qed.

(** X2: with every option selected, which is how each multiselect starts,
    the entity filter drops nothing: in tab 3 [df_fac_filtered] is
    [df_rack_filtered], in tab 2 the facility filter returns its input, and
    in tab 1 only the date test decides. *)
Theorem default_selection_keeps_every_row :
  (forall table dr e,
     let env :=
       Tab3.run table dr (Widgets.tab3_facilities (Tab3.filter_dates dr table)) e in
     Tab3.df_fac_filtered env = Tab3.df_rack_filtered env) /\
  (forall df,
     Tab2.filter_entity (Tab2.Facility (Widgets.tab2_facilities df)) df = df) /\
  (forall table dr e,
     Tab1.df_dc (Tab1.run table (Widgets.tab1_datacenters table) dr e) =
     filter (fun r => in_range dr (Tab1.TIME_WINDOW r)) table).
Proof.
  repeat apply conj.
  - intros table dr e env. subst env.
    change (Tab3.filter_facilities
              (Widgets.tab3_facilities (Tab3.filter_dates dr table))
              (Tab3.filter_dates dr table) = Tab3.filter_dates dr table).
    apply (select_all_keeps_all Tab3.FACILITY_ID).
  - intros df. apply (select_all_keeps_all Tab2.FACILITY_ID).
  - intros table dr e. rewrite tab1_run_df_dc.
    apply filter_ext_in. intros r I.
    replace (isin (Widgets.tab1_datacenters table) (Tab1.DATACENTER_ID r))
      with true; [reflexivity|].
    symmetry. apply isin_In, unique_In. now apply in_map.
Qed.

(** X3: the legends of the tab-2 power and temperature charts are shown
    exactly when the filtered frame holds rows of two different
    facilities; a frame of one facility, or of no rows, hides them. *)
Theorem show_legend_iff_two_facilities :
  forall df,
    Widgets.show_legend df = true <->
    exists r1 r2, In r1 df /\ In r2 df /\ Tab2.FACILITY_ID r1 <> Tab2.FACILITY_ID r2.
Proof.
  intros df. unfold Widgets.show_legend.
  rewrite (two_distinct_iff _ (unique_NoDup _)). split.
  - intros [a [b [Ia [Ib D]]]].
    apply unique_In, in_map_iff in Ia. apply unique_In, in_map_iff in Ib.
    destruct Ia as [r1 [<- I1]], Ib as [r2 [<- I2]]. now exists r1, r2.
  - intros [r1 [r2 [I1 [I2 D]]]].
    exists (Tab2.FACILITY_ID r1), (Tab2.FACILITY_ID r2).
    repeat split; [apply unique_In, in_map, I1|apply unique_In, in_map, I2|exact D].
Qed.

(** ** The date range a widget starts from *)

Lemma fold_min_spec (rest : list Z) (t : Z) :
  In (fold_left Z.min rest t) (t :: rest) /\
  forall x, In x (t :: rest) -> (fold_left Z.min rest t <= x)%Z.
Proof.
  revert t. induction rest as [|y rest IH]; intros t; simpl.
  - split; [now left|]. intros x [<-|[]]. lia.
  - destruct (IH (Z.min t y)) as [I L]. split.
    + destruct I as [E|I]; [|now right; right].
      rewrite <- E. destruct (Z.min_spec t y) as [[_ ->]|[_ ->]]; auto.
    + intros x [<-|[<-|Hx]].
      * specialize (L (Z.min t y) (or_introl eq_refl)). lia.
      * specialize (L (Z.min t y) (or_introl eq_refl)). lia.
      * apply L. now right.
Qed.

Lemma fold_max_spec (rest : list Z) (t : Z) :
  In (fold_left Z.max rest t) (t :: rest) /\
  forall x, In x (t :: rest) -> (x <= fold_left Z.max rest t)%Z.
Proof.
  revert t. induction rest as [|y rest IH]; intros t; simpl.
  - split; [now left|]. intros x [<-|[]]. lia.
  - destruct (IH (Z.max t y)) as [I L]. split.
    + destruct I as [E|I]; [|now right; right].
      rewrite <- E. destruct (Z.max_spec t y) as [[_ ->]|[_ ->]]; auto.
    + intros x [<-|[<-|Hx]].
      * specialize (L (Z.max t y) (or_introl eq_refl)). lia.
      * specialize (L (Z.max t y) (or_introl eq_refl)). lia.
      * apply L. now right.
Qed.

Lemma to_date_bounds (t : timestamp) :
  (to_datetime (Widgets.to_date t) <= t < to_datetime (Widgets.to_date t + 1))%Z.
Proof.
  unfold to_datetime, Widgets.to_date.
  pose proof (Z.div_mod t 86400000000000 ltac:(lia)) as D.
  pose proof (Z.mod_pos_bound t 86400000000000 ltac:(lia)) as B.
  lia.
Qed.

Lemma to_date_to_datetime (d : date) : Widgets.to_date (to_datetime d) = d.
Proof. unfold to_datetime, Widgets.to_date. apply Z.div_mul. lia. Qed.

Lemma to_date_mono (t1 t2 : timestamp) :
  (t1 <= t2)%Z -> (Widgets.to_date t1 <= Widgets.to_date t2)%Z.
Proof. intros H. unfold Widgets.to_date. apply Z.div_le_mono; lia. Qed.

Lemma to_datetime_mono (d1 d2 : date) :
  (d1 <= d2)%Z <-> (to_datetime d1 <= to_datetime d2)%Z.
Proof. unfold to_datetime. lia. Qed.

Lemma default_date_range_spec (col : list timestamp) (dr : date_range) :
  Widgets.default_date_range col = Some dr ->
  exists first last,
    In first col /\ In last col /\
    (forall t, In t col -> (first <= t <= last)%Z) /\
    dr = (Widgets.to_date first, Widgets.to_date last).
Proof.
  unfold Widgets.default_date_range, Widgets.timestamp_min, Widgets.timestamp_max.
  destruct col as [|t rest]; [discriminate|]. intros H. inversion H; subst.
  destruct (fold_min_spec rest t) as [Imin Lmin].
  destruct (fold_max_spec rest t) as [Imax Lmax].
  exists (fold_left Z.min rest t), (fold_left Z.max rest t).
  repeat split; auto.
Qed.

(** X4: the range a date widget starts from runs from the day of the
    earliest row to the day of the latest row, and [pd.to_datetime] turns
    both days into midnights.  Left as it is, the filter therefore keeps a
    row exactly when it is not later than midnight of the last day: every
    row of an earlier day passes, and every row of the last day after
    00:00 is dropped -- the latest row itself passes only if it is stamped
    midnight. *)
Theorem default_date_range_stops_at_midnight :
  (forall col dr, Widgets.default_date_range col = Some dr ->
     (fst dr <= snd dr)%Z /\
     (forall t, In t col ->
        (in_range dr t = true <-> (t <= to_datetime (snd dr))%Z)) /\
     (forall t, In t col -> (Widgets.to_date t < snd dr)%Z -> in_range dr t = true) /\
     (forall t, In t col -> Widgets.to_date t = snd dr ->
        t <> to_datetime (snd dr) -> in_range dr t = false) /\
     (exists last, In last col /\ (forall t, In t col -> (t <= last)%Z) /\
        (in_range dr last = true <-> last = to_datetime (Widgets.to_date last)))) /\
  (forall table dr sel e r,
     Widgets.tab3_default_dates table = Some dr -> In r table ->
     (In r (Tab3.df_rack_filtered (Tab3.run table dr sel e)) <->
      (Tab3.TIME_WINDOW r <= to_datetime (snd dr))%Z)).
Proof.
  assert (G : forall col dr, Widgets.default_date_range col = Some dr ->
            (fst dr <= snd dr)%Z /\
            forall t, In t col ->
              (in_range dr t = true <-> (t <= to_datetime (snd dr))%Z)).
  { intros col dr H.
    destruct (default_date_range_spec col dr H) as [first [last [If [Il [B ->]]]]].
    simpl. split.
    - apply to_date_mono. apply (B last Il).
    - intros t It. rewrite in_range_bounds. simpl.
      pose proof (to_date_bounds first). specialize (B t It). lia. }
  repeat apply conj; [|intros table dr sel e r H Ir].
  - intros col dr H. destruct (G col dr H) as [G1 G2].
    repeat apply conj; [exact G1|exact G2| | |].
    + intros t It Lt. apply (G2 t It).
      pose proof (to_date_bounds t) as B.
      assert (S : (Widgets.to_date t + 1 <= snd dr)%Z) by lia.
      apply to_datetime_mono in S. lia.
    + intros t It E N. destruct (in_range dr t) eqn:R; [|reflexivity].
      apply (G2 t It) in R. pose proof (to_date_bounds t) as B.
      rewrite E in B. lia.
    + destruct (default_date_range_spec col dr H) as [first [last [If [Il [B E]]]]].
      exists last. repeat split; [exact Il|intros t It; apply (B t It)| |].
      * intros R. apply (G2 last Il) in R. subst dr. simpl in R.
        pose proof (to_date_bounds last). lia.
      * intros E'. apply (G2 last Il). subst dr. simpl. lia.
  - rewrite tab3_run_df_rack_filtered. unfold Tab3.filter_dates.
    rewrite filter_In.
    destruct (G _ dr H) as [_ G2].
    rewrite (G2 (Tab3.TIME_WINDOW r)) by now apply in_map. tauto.
Qed.

(** Two readings of one day, at 00:00 and at 12:00: the widget starts from
    that day to that day, and the filter keeps the reading of 00:00 only. *)
Lemma default_date_range_stops_at_midnight_witness :
  in_range (0, 0)%Z 43200000000000%Z = false.
Proof.
  apply (proj1 (proj2 (proj2 (proj2
           (proj1 default_date_range_stops_at_midnight
              [0; 43200000000000]%Z (0, 0)%Z eq_refl))))
           43200000000000%Z).
  - right. left. reflexivity.
  - reflexivity.
  - discriminate.
Defined.

(** ** Sorted frames *)

Section SortedFacts.
Context {A : Type} (before : A -> A -> bool).
Hypothesis before_total : forall a b, before a b = false -> before b a = true.
Hypothesis before_trans :
  forall a b c, before a b = true -> before b c = true -> before a c = true.

Let ordered (b a : A) : Prop := before b a = true.

Lemma sort_insert_sorted (a : A) (sorted : list A) :
  StronglySorted ordered sorted ->
  StronglySorted ordered (sort_insert before a sorted).
Proof.
  induction 1 as [|b rest S IH F]; simpl; [repeat constructor|].
  destruct (before b a) eqn:E.
  - constructor; [assumption|].
    apply Forall_forall. intros x I.
    apply (Permutation_in _ (Permutation_sym (sort_insert_perm before a rest))) in I.
    destruct I as [<-|I]; [exact E|].
    rewrite Forall_forall in F. now apply F.
  - constructor; [now constructor|].
    apply before_total in E. constructor; [exact E|].
    eapply Forall_impl; [|exact F]. intros x H. now apply (before_trans a b x).
Qed.

Lemma sort_values_sorted (df : list A) :
  StronglySorted ordered (sort_values before df).
Proof.
  unfold sort_values.
  assert (G : forall l acc, StronglySorted ordered acc ->
            StronglySorted ordered
              (fold_left (fun sorted a => sort_insert before a sorted) l acc)).
  { induction l as [|a l IH]; simpl; intros acc S; [assumption|].
    apply IH. now apply sort_insert_sorted. }
  apply G. constructor.
Qed.

End SortedFacts.

Lemma descending_total (x y : timestamp) :
  descending x y = false -> descending y x = true.
Proof. unfold descending. rewrite Z.leb_gt, Z.leb_le. lia. Qed.

Lemma descending_trans (x y z : timestamp) :
  descending x y = true -> descending y z = true -> descending x z = true.
Proof. unfold descending. rewrite !Z.leb_le. lia. Qed.

Lemma ascending_na_last_total (x y : float) :
  ascending_na_last x y = false -> ascending_na_last y x = true.
Proof.
  unfold ascending_na_last. rewrite orb_false_iff, orb_true_iff.
  intros [Ny L]. destruct (is_nan x) eqn:Nx; [now left|right].
  apply FloatFacts.not_ltb_leb; try assumption.
  destruct (x <? y) eqn:E; [|reflexivity].
  apply FloatFacts.ltb_leb in E. congruence.
Qed.

Lemma ascending_na_last_trans (x y z : float) :
  ascending_na_last x y = true -> ascending_na_last y z = true ->
  ascending_na_last x z = true.
Proof.
  unfold ascending_na_last. rewrite !orb_true_iff.
  intros H1 [Nz|L2]; [now left|right].
  destruct (FloatFacts.leb_numbers _ _ L2) as [Ny _].
  destruct H1 as [N|L1]; [congruence|].
  now apply (FloatFacts.leb_trans x y z).
Qed.

Lemma StronglySorted_weaken {A : Type} (R R' : A -> A -> Prop) (l : list A) :
  (forall a b, R a b -> R' a b) -> StronglySorted R l -> StronglySorted R' l.
Proof.
  intros W. induction 1 as [|a l S IH F]; constructor; [assumption|].
  eapply Forall_impl; [|exact F]. intros b. apply W.
Qed.

Lemma sort_by_time_sorted {A : Type} (time : A -> timestamp) (df : list A) :
  StronglySorted (fun b a => (time a <= time b)%Z)
    (sort_values (fun b a => descending (time b) (time a)) df).
Proof.
  eapply StronglySorted_weaken; [|apply sort_values_sorted].
  - intros a b H. unfold descending in H. now apply Z.leb_le.
  - intros a b. apply descending_total.
  - intros a b c. apply descending_trans.
Qed.

(** X5: the alerts table the page shows is in descending [TIME_WINDOW]
    order, most recent anomaly first, and holds the rows of the alerts
    frame, no more and no fewer; the message is shown only when that frame
    is empty. *)
Theorem alerts_table_most_recent_first :
  forall table dr sel e,
    let env := Tab3.run table dr sel e in
    match Tab3.alerts_section env with
    | Tab3.dataframe rows =>
        StronglySorted
          (fun b a => (Tab3.Alert.TIME_WINDOW a <= Tab3.Alert.TIME_WINDOW b)%Z) rows /\
        Permutation (Tab3.alerts env) rows
    | Tab3.info _ => Tab3.alerts env = []
    end.
Proof.
  intros table dr sel e env. subst env.
  rewrite tab3_run_alerts_section. unfold Tab3.show_alerts.
  destruct (Tab3.alerts (Tab3.run table dr sel e)) as [|a rest]; [reflexivity|].
  simpl List.length. simpl Nat.ltb. cbv iota.
  split; [apply sort_by_time_sorted|apply sort_values_perm].
Qed.

(** X6: the table preview that ends tab 2 (and [facility_dashboard]) shows
    the 50 most recent rows of the frame, or all of them when there are
    fewer: it has min(50, len) rows, in descending [TIME_WINDOW] order, and
    no row left out is more recent than a row shown. *)
Theorem preview_is_latest_fifty :
  forall df,
    List.length (FacilityDashboard.preview df) = Nat.min 50 (List.length df) /\
    StronglySorted (fun b a => (Tab2.TIME_WINDOW a <= Tab2.TIME_WINDOW b)%Z)
      (FacilityDashboard.preview df) /\
    (exists rest,
       Permutation df (FacilityDashboard.preview df ++ rest) /\
       forall shown left_out,
         In shown (FacilityDashboard.preview df) -> In left_out rest ->
         (Tab2.TIME_WINDOW left_out <= Tab2.TIME_WINDOW shown)%Z) /\
    FacilityDashboard.table (FacilityDashboard.facility_dashboard df) =
      FacilityDashboard.preview df.
Proof.
  intros df. unfold FacilityDashboard.preview.
  set (sorted := sort_values _ df).
  assert (P : Permutation df sorted) by apply sort_values_perm.
  assert (S : StronglySorted
                (fun b a => (Tab2.TIME_WINDOW a <= Tab2.TIME_WINDOW b)%Z) sorted)
    by apply sort_by_time_sorted.
  rewrite <- (firstn_skipn 50 sorted) in S.
  repeat apply conj.
  - rewrite length_firstn. now rewrite (Permutation_length P).
  - clear P. revert S. generalize (firstn 50 sorted), (skipn 50 sorted).
    induction l as [|x l IH]; simpl; intros l2 S; [constructor|].
    inversion S as [|? ? S' F]; subst. constructor; [now apply (IH l2)|].
    rewrite Forall_forall in *. intros y I. apply F, in_or_app. now left.
  - exists (skipn 50 sorted). split; [now rewrite firstn_skipn|].
    clear P. revert S. generalize (firstn 50 sorted), (skipn 50 sorted).
    induction l as [|x l IH]; simpl; intros l2 S shown left_out Is Il;
      [contradiction|].
    inversion S as [|? ? S' F]; subst. destruct Is as [<-|Is].
    + rewrite Forall_forall in F. apply F, in_or_app. now right.
    + now apply (IH l2 S').
  - reflexivity.
Qed.

(** ** Ratings *)

Lemma classify_tests (pue : float) :
  Tab2.classify_efficiency pue =
  if pue <? 1.3 then "Excellent"
  else if pue <? 1.6 then "Good"
  else if pue <? 2.0 then "Moderate"
  else "Poor".
Proof. reflexivity. Qed.

Lemma below_carries_down (b a c : float) :
  (b <=? a) = true -> (a <? c) = true -> (b <? c) = true.
Proof. apply FloatFacts.leb_ltb_trans. Qed.

(** X7: the label tells the bucket: "Excellent" exactly below 1.3, "Good"
    exactly on [1.3, 1.6), "Moderate" exactly on [1.6, 2.0), and "Poor"
    exactly from 2.0 on or when the PUE is missing (NaN): a facility
    without PUE data is rated "Poor". *)
Theorem rating_tells_bucket :
  forall pue,
    (Tab2.classify_efficiency pue = "Excellent" <-> (pue <? 1.3) = true) /\
    (Tab2.classify_efficiency pue = "Good" <->
       (1.3 <=? pue) = true /\ (pue <? 1.6) = true) /\
    (Tab2.classify_efficiency pue = "Moderate" <->
       (1.6 <=? pue) = true /\ (pue <? 2.0) = true) /\
    (Tab2.classify_efficiency pue = "Poor" <->
       (2.0 <=? pue) = true \/ is_nan pue = true).
Proof.
  intros pue. rewrite classify_tests.
  assert (N13 : is_nan 1.3 = false) by reflexivity.
  assert (N16 : is_nan 1.6 = false) by reflexivity.
  assert (N20 : is_nan 2.0 = false) by reflexivity.
  assert (A13 : (1.3 <=? pue) = true -> (pue <? 1.3) = false)
    by apply FloatOrder.leb_not_ltb.
  assert (A16 : (1.6 <=? pue) = true -> (pue <? 1.6) = false)
    by apply FloatOrder.leb_not_ltb.
  assert (A20 : (2.0 <=? pue) = true -> (pue <? 2.0) = false)
    by apply FloatOrder.leb_not_ltb.
  assert (B16 : (1.6 <=? pue) = true -> (pue <? 1.3) = false)
    by apply (FloatOrder.ltb_leb_not_ltb 1.3 1.6 pue eq_refl).
  assert (B20 : (2.0 <=? pue) = true -> (pue <? 1.3) = false)
    by apply (FloatOrder.ltb_leb_not_ltb 1.3 2.0 pue eq_refl).
  assert (C20 : (2.0 <=? pue) = true -> (pue <? 1.6) = false)
    by apply (FloatOrder.ltb_leb_not_ltb 1.6 2.0 pue eq_refl).
  assert (D13 : is_nan pue = false -> (pue <? 1.3) = false -> (1.3 <=? pue) = true)
    by (intros; now apply FloatFacts.not_ltb_leb).
  assert (D16 : is_nan pue = false -> (pue <? 1.6) = false -> (1.6 <=? pue) = true)
    by (intros; now apply FloatFacts.not_ltb_leb).
  assert (D20 : is_nan pue = false -> (pue <? 2.0) = false -> (2.0 <=? pue) = true)
    by (intros; now apply FloatFacts.not_ltb_leb).
  assert (F13 : (1.3 <=? pue) = true -> is_nan pue = false)
    by (intros L; apply (FloatFacts.leb_numbers _ _ L)).
  assert (F16 : (1.6 <=? pue) = true -> is_nan pue = false)
    by (intros L; apply (FloatFacts.leb_numbers _ _ L)).
  assert (F20 : (2.0 <=? pue) = true -> is_nan pue = false)
    by (intros L; apply (FloatFacts.leb_numbers _ _ L)).
  assert (E13 : is_nan pue = true -> (pue <? 1.3) = false)
    by apply FloatFacts.nan_not_ltb.
  assert (E16 : is_nan pue = true -> (pue <? 1.6) = false)
    by apply FloatFacts.nan_not_ltb.
  assert (E20 : is_nan pue = true -> (pue <? 2.0) = false)
    by apply FloatFacts.nan_not_ltb.
  destruct (is_nan pue), (pue <? 1.3), (pue <? 1.6), (pue <? 2.0),
    (1.3 <=? pue), (1.6 <=? pue), (2.0 <=? pue);
    repeat match goal with
           | H : ?a = ?a -> _ |- _ => specialize (H eq_refl)
           end;
    try discriminate;
    repeat apply conj;
      first [ intros H; discriminate H
            | intros [H1 H2]; first [discriminate H1 | discriminate H2]
            | intros [H|H]; discriminate H
            | intros _; first [reflexivity | split; reflexivity
                              | left; reflexivity | right; reflexivity] ].
Qed.

Lemma classify_monotone (b a : float) :
  ascending_na_last b a = true ->
  rating_rank (Tab2.classify_efficiency b) <= rating_rank (Tab2.classify_efficiency a).
Proof.
  unfold ascending_na_last. rewrite orb_true_iff. intros [N|L].
  - rewrite (classify_tests a), !(FloatFacts.nan_not_ltb a _ N).
    rewrite classify_tests.
    destruct (b <? 1.3), (b <? 1.6), (b <? 2.0); vm_compute; lia.
  - pose proof (below_carries_down b a 1.3 L) as C13.
    pose proof (below_carries_down b a 1.6 L) as C16.
    pose proof (below_carries_down b a 2.0 L) as C20.
    rewrite !classify_tests.
    destruct (a <? 1.3); [rewrite C13 by reflexivity; vm_compute; lia|].
    destruct (a <? 1.6);
      [rewrite C16 by reflexivity; destruct (b <? 1.3); vm_compute; lia|].
    destruct (a <? 2.0);
      [rewrite C20 by reflexivity; destruct (b <? 1.3), (b <? 1.6); vm_compute; lia|].
    destruct (b <? 1.3), (b <? 1.6), (b <? 2.0); vm_compute; lia.
Qed.

(** X8: a facility below the benchmark line [target_pue = 1.5] is rated
    "Excellent" or "Good", and one rated "Moderate" or "Poor" is never
    below the line; the converse fails, a PUE of 1.55 is "Good" yet above
    the line. *)
Theorem below_target_is_well_rated :
  (forall pue, (pue <? FacilityDashboard.target_pue) = true ->
     Tab2.classify_efficiency pue = "Excellent" \/
     Tab2.classify_efficiency pue = "Good") /\
  (forall pue,
     Tab2.classify_efficiency pue = "Moderate" \/
     Tab2.classify_efficiency pue = "Poor" ->
     (pue <? FacilityDashboard.target_pue) = false) /\
  (Tab2.classify_efficiency 1.55 = "Good" /\
   (1.55 <? FacilityDashboard.target_pue) = false).
Proof.
  assert (G : forall pue, (pue <? FacilityDashboard.target_pue) = true ->
            Tab2.classify_efficiency pue = "Excellent" \/
            Tab2.classify_efficiency pue = "Good").
  { intros pue H. rewrite classify_tests.
    rewrite (FloatFacts.ltb_leb_trans pue 1.5 1.6 H eq_refl).
    destruct (pue <? 1.3); auto. }
  repeat apply conj; try reflexivity; [exact G|].
  intros pue H. destruct (pue <? FacilityDashboard.target_pue) eqn:E; [|reflexivity].
  destruct (G pue E) as [R|R]; rewrite R in H; destruct H; discriminate.
Qed.

(** A PUE of 1.4 is below the line and rated "Good". *)
Lemma below_target_is_well_rated_witness :
  Tab2.classify_efficiency 1.4 = "Excellent" \/ Tab2.classify_efficiency 1.4 = "Good".
Proof.
  apply (proj1 below_target_is_well_rated 1.4). reflexivity.
Defined.

(** X9: the rating table has one row per facility of the filtered frame,
    each with the group mean of the PUE of that facility's rows and the
    rating of that mean; rows come in ascending mean PUE, a missing mean
    last, so the ratings never improve down the table.  A facility with
    PUE rows 1.39, 1.12 and 1.39 has mean 1.3 and is rated "Good". *)
Theorem rating_table_sorted_by_pue :
  forall df,
    NoDup (map Tab2.Rating.FACILITY_ID (Tab2.pue_ratings df)) /\
    (forall k, In k (map Tab2.Rating.FACILITY_ID (Tab2.pue_ratings df)) <->
               In k (map Tab2.FACILITY_ID df)) /\
    (forall o, In o (Tab2.pue_ratings df) ->
       Tab2.Rating.avg_pue o =
         group_mean
           (map Tab2.PUE
              (filter (fun r => String.eqb (Tab2.FACILITY_ID r)
                                           (Tab2.Rating.FACILITY_ID o)) df)) /\
       Tab2.Rating.Efficiency_Rating o =
         Tab2.classify_efficiency (Tab2.Rating.avg_pue o)) /\
    StronglySorted
      (fun b a => is_nan (Tab2.Rating.avg_pue a) = true \/
                  (Tab2.Rating.avg_pue b <=? Tab2.Rating.avg_pue a) = true)
      (Tab2.pue_ratings df) /\
    StronglySorted
      (fun b a => rating_rank (Tab2.Rating.Efficiency_Rating b) <=
                  rating_rank (Tab2.Rating.Efficiency_Rating a))
      (Tab2.pue_ratings df) /\
    (forall t1 t2 t3 power temp racks dc,
       Tab2.pue_ratings
         [ Tab2.Build_row "F01" t1 power temp racks 1.39 dc;
           Tab2.Build_row "F01" t2 power temp racks 1.12 dc;
           Tab2.Build_row "F01" t3 power temp racks 1.39 dc ]
       = [Tab2.Rating.Build_row "F01" 1.3 "Good"]).
Proof.
  intros df.
  assert (Ex : forall t1 t2 t3 power temp racks dc,
       Tab2.pue_ratings
         [ Tab2.Build_row "F01" t1 power temp racks 1.39 dc;
           Tab2.Build_row "F01" t2 power temp racks 1.12 dc;
           Tab2.Build_row "F01" t3 power temp racks 1.39 dc ]
       = [Tab2.Rating.Build_row "F01" 1.3 "Good"])
    by (intros; vm_compute; reflexivity).
  unfold Tab2.pue_ratings at 1 2 3 4 5.
  set (before := fun b a => ascending_na_last (Tab2.Rating.avg_pue b) (Tab2.Rating.avg_pue a)).
  set (rated := map Tab2.rate (groupby Tab2.FACILITY_ID df)).
  assert (P : Permutation rated (sort_values before rated)) by apply sort_values_perm.
  assert (K : map Tab2.Rating.FACILITY_ID rated = map fst (groupby Tab2.FACILITY_ID df))
    by (apply (aggregated_keys Tab2.FACILITY_ID); reflexivity).
  assert (S : StronglySorted (fun b a => before b a = true) (sort_values before rated)).
  { apply sort_values_sorted.
    - intros a b. apply ascending_na_last_total.
    - intros a b c. apply ascending_na_last_trans. }
  assert (R : forall o, In o (sort_values before rated) ->
            o = Tab2.rate (Tab2.Rating.FACILITY_ID o,
                           filter (fun r => String.eqb (Tab2.FACILITY_ID r)
                                                       (Tab2.Rating.FACILITY_ID o)) df)).
  { intros o I. apply (Permutation_in _ (Permutation_sym P)) in I.
    now apply (aggregated_row Tab2.FACILITY_ID Tab2.rate Tab2.Rating.FACILITY_ID). }
  repeat apply conj.
  - apply (Permutation_NoDup (Permutation_map _ P)). rewrite K.
    apply groupby_keys_NoDup.
  - intros k. rewrite <- (groupby_keys Tab2.FACILITY_ID df k), <- K.
    split; apply Permutation_in; [symmetry|]; now apply Permutation_map.
  - intros o I. pose proof (R o I) as E. split; rewrite E; reflexivity.
  - eapply StronglySorted_weaken; [|exact S].
    intros b a H. unfold before, ascending_na_last in H.
    now apply orb_true_iff in H.
  - assert (S' : StronglySorted
                   (fun b a => before b a = true /\ In b (sort_values before rated)
                               /\ In a (sort_values before rated))
                   (sort_values before rated)).
    { clear - S. induction S as [|x l S IH F]; constructor.
      - eapply StronglySorted_weaken; [|exact IH].
        intros a b [H [Ia Ib]]. repeat split; [exact H|now right|now right].
      - rewrite Forall_forall in *. intros y I.
        repeat split; [now apply F|now left|now right]. }
    eapply StronglySorted_weaken; [|exact S'].
    intros b a [H [Ib Ia]]. unfold before in H.
    assert (Eb : Tab2.Rating.Efficiency_Rating b =
                 Tab2.classify_efficiency (Tab2.Rating.avg_pue b)).
    { pose proof (R b Ib) as E. rewrite E. reflexivity. }
    assert (Ea : Tab2.Rating.Efficiency_Rating a =
                 Tab2.classify_efficiency (Tab2.Rating.avg_pue a)).
    { pose proof (R a Ia) as E. rewrite E. reflexivity. }
    rewrite Eb, Ea. now apply classify_monotone.
  - exact Ex.
Qed.

(** ** Min and max of a column *)

Lemma dropna_In (col : list float) (x : float) :
  In x (dropna col) <-> In x col /\ is_nan x = false.
Proof.
  unfold dropna. rewrite filter_In, negb_true_iff. tauto.
Qed.

Lemma fold_pick_min (rest : list float) (x : float) :
  is_nan x = false -> Forall (fun y => is_nan y = false) rest ->
  let m := fold_left (fun acc y => if y <? acc then y else acc) rest x in
  In m (x :: rest) /\ forall y, In y (x :: rest) -> (m <=? y) = true.
Proof.
  revert x. induction rest as [|z rest IH]; intros x Nx F; simpl.
  - split; [now left|]. intros y [<-|[]]. now apply FloatFacts.leb_refl.
  - inversion F as [|? ? Nz F']; subst.
    set (acc := if z <? x then z else x).
    assert (Na : is_nan acc = false) by (unfold acc; destruct (z <? x); assumption).
    assert (Ax : (acc <=? x) = true).
    { unfold acc. destruct (z <? x) eqn:E;
        [now apply FloatFacts.ltb_leb|now apply FloatFacts.leb_refl]. }
    assert (Az : (acc <=? z) = true).
    { unfold acc. destruct (z <? x) eqn:E;
        [now apply FloatFacts.leb_refl|now apply FloatFacts.not_ltb_leb]. }
    destruct (IH acc Na F') as [I L]. split.
    + destruct I as [E|I]; [|now right; right].
      rewrite <- E. unfold acc. destruct (z <? x); auto.
    + pose proof (L acc (or_introl eq_refl)) as La.
      intros y [<-|[<-|Hy]].
      * now apply (FloatFacts.leb_trans _ acc).
      * now apply (FloatFacts.leb_trans _ acc).
      * apply L. now right.
Qed.

Lemma fold_pick_max (rest : list float) (x : float) :
  is_nan x = false -> Forall (fun y => is_nan y = false) rest ->
  let m := fold_left (fun acc y => if acc <? y then y else acc) rest x in
  In m (x :: rest) /\ forall y, In y (x :: rest) -> (y <=? m) = true.
Proof.
  revert x. induction rest as [|z rest IH]; intros x Nx F; simpl.
  - split; [now left|]. intros y [<-|[]]. now apply FloatFacts.leb_refl.
  - inversion F as [|? ? Nz F']; subst.
    set (acc := if x <? z then z else x).
    assert (Na : is_nan acc = false) by (unfold acc; destruct (x <? z); assumption).
    assert (Ax : (x <=? acc) = true).
    { unfold acc. destruct (x <? z) eqn:E;
        [now apply FloatFacts.ltb_leb|now apply FloatFacts.leb_refl]. }
    assert (Az : (z <=? acc) = true).
    { unfold acc. destruct (x <? z) eqn:E;
        [now apply FloatFacts.leb_refl|now apply FloatFacts.not_ltb_leb]. }
    destruct (IH acc Na F') as [I L]. split.
    + destruct I as [E|I]; [|now right; right].
      rewrite <- E. unfold acc. destruct (x <? z); auto.
    + pose proof (L acc (or_introl eq_refl)) as La.
      intros y [<-|[<-|Hy]].
      * now apply (FloatFacts.leb_trans _ acc).
      * now apply (FloatFacts.leb_trans _ acc).
      * apply L. now right.
Qed.

Lemma dropna_numbers (col : list float) :
  Forall (fun y => is_nan y = false) (dropna col).
Proof. apply Forall_forall. intros y I. now apply dropna_In in I. Qed.

Lemma series_min_spec (col : list float) (x : float) :
  In x col -> is_nan x = false ->
  In (series_min col) col /\ is_nan (series_min col) = false /\
  forall y, In y col -> is_nan y = false -> (series_min col <=? y) = true.
Proof.
  intros I N. unfold series_min, reduce_with.
  pose proof (dropna_numbers col) as F.
  assert (Ix : In x (dropna col)) by now apply dropna_In.
  destruct (dropna col) as [|h rest] eqn:E; [contradiction|].
  inversion F as [|? ? Nh F']; subst.
  destruct (fold_pick_min rest h Nh F') as [Im L]. cbv zeta in Im, L.
  assert (Im' : In (fold_left (fun acc y => if y <? acc then y else acc) rest h)
                   (dropna col)) by now rewrite E.
  apply dropna_In in Im'. destruct Im' as [Ic Nc]. repeat split; try assumption.
  intros y Iy Ny. apply L. rewrite <- E. now apply dropna_In.
Qed.

Lemma series_max_spec (col : list float) (x : float) :
  In x col -> is_nan x = false ->
  In (series_max col) col /\ is_nan (series_max col) = false /\
  forall y, In y col -> is_nan y = false -> (y <=? series_max col) = true.
Proof.
  intros I N. unfold series_max, reduce_with.
  pose proof (dropna_numbers col) as F.
  assert (Ix : In x (dropna col)) by now apply dropna_In.
  destruct (dropna col) as [|h rest] eqn:E; [contradiction|].
  inversion F as [|? ? Nh F']; subst.
  destruct (fold_pick_max rest h Nh F') as [Im L]. cbv zeta in Im, L.
  assert (Im' : In (fold_left (fun acc y => if acc <? y then y else acc) rest h)
                   (dropna col)) by now rewrite E.
  apply dropna_In in Im'. destruct Im' as [Ic Nc]. repeat split; try assumption.
  intros y Iy Ny. apply L. rewrite <- E. now apply dropna_In.
Qed.

Lemma dropna_nothing (col : list float) :
  (forall x, In x col -> is_nan x = true) -> dropna col = [].
Proof.
  intros H. unfold dropna. induction col as [|x col IH]; simpl; [reflexivity|].
  rewrite (H x (or_introl eq_refl)). simpl. apply IH.
  intros y I. apply H. now right.
Qed.

(** X10: over a column that holds at least one number, the min and the max
    that the chart scales are built from are numbers of the column, and
    every number of the column lies between them; missing values are
    passed over.  On a frame with rows, the rack temperature axis of tab 3
    runs from that min less 1 to that max plus 1. *)
Theorem axis_min_max_bound_the_column :
  (forall col x, In x col -> is_nan x = false ->
     In (series_min col) col /\ In (series_max col) col /\
     is_nan (series_min col) = false /\ is_nan (series_max col) = false /\
     forall y, In y col -> is_nan y = false ->
       (series_min col <=? y) = true /\ (y <=? series_max col) = true) /\
  (forall r df,
     value (Tab3.temp_scale (r :: df)) =
     (series_min (map Tab3.AVG_TEMP_C (r :: df)) - 1,
      series_max (map Tab3.AVG_TEMP_C (r :: df)) + 1) /\
     value (Tab3.eff_scale (r :: df)) =
     (series_min (map Tab3.EFFICIENCY (r :: df)) - 0.05,
      series_max (map Tab3.EFFICIENCY (r :: df)) + 0.05)).
Proof.
  split.
  - intros col x I N.
    destruct (series_min_spec col x I N) as [I1 [N1 L1]].
    destruct (series_max_spec col x I N) as [I2 [N2 L2]].
    repeat split; auto.
  - intros r df. split; reflexivity.
Qed.

(** Of the temperatures 31, missing and 28, the min is 28. *)
Lemma axis_min_max_bound_the_column_witness :
  (series_min [31; nan; 28] <=? 28) = true.
Proof.
  apply (proj2 (proj2 (proj2 (proj2
           (proj1 axis_min_max_bound_the_column [31; nan; 28] 31
              (or_introl eq_refl) eq_refl)))) 28).
  - right. right. left. reflexivity.
  - reflexivity.
Defined.

(** X11: a test on the row count does not see missing values.  A frame
    with rows whose temperatures are all missing passes the test of the
    tab-3 scale and gets a NaN domain all the same; and in tab 2 a frame
    with rows whose [RACKS_ACTIVE] are all 0 has only [pd.NA] in its
    power-per-rack column and gets a NaN domain for the power axis. *)
Theorem all_missing_column_gives_nan_domain :
  (forall r df,
     (forall x, In x (r :: df) -> is_nan (Tab3.AVG_TEMP_C x) = true) ->
     Tab3.temp_scale (r :: df) =
       ((nan, nan), [ReduceMin (S (List.length df)); ReduceMax (S (List.length df))])) /\
  (forall df,
     (forall x, In x df -> Tab2.RACKS_ACTIVE x = 0%Z) ->
     Forall (fun c => c = NA) (map Tab2.power_per_rack df) /\
     value (Tab2.power_chart_domain (map Tab2.power_per_rack df)) = (nan, nan)).
Proof.
  split.
  - intros r df H.
    assert (D : dropna (map Tab3.AVG_TEMP_C (r :: df)) = []).
    { apply dropna_nothing. intros x I. apply in_map_iff in I.
      destruct I as [y [<- I]]. now apply H. }
    unfold Tab3.temp_scale, Tab3.guarded, eval_min, eval_max, series_min,
      series_max, reduce_with.
    rewrite D. simpl. now rewrite length_map.
  - intros df H.
    assert (F : Forall (fun c => c = NA) (map Tab2.power_per_rack df)).
    { apply Forall_forall. intros c I. apply in_map_iff in I.
      destruct I as [x [<- I]]. unfold Tab2.power_per_rack.
      now rewrite (H x I). }
    split; [exact F|].
    assert (D : dropna (map number_or_nan (map Tab2.power_per_rack df)) = []).
    { apply dropna_nothing. intros x I. apply in_map_iff in I.
      destruct I as [c [<- I]]. rewrite Forall_forall in F.
      now rewrite (F c I). }
    unfold Tab2.power_chart_domain, eval_min, eval_max, series_min, series_max,
      reduce_with.
    rewrite D. reflexivity.
Qed.

(** One rack reading with no temperature: the scale is NaN to NaN. *)
Lemma all_missing_column_gives_nan_domain_witness :
  Tab3.temp_scale [Tab3.Build_row "F01" "R1" 0%Z nan 4 0.9 1.4] =
  ((nan, nan), [ReduceMin 1; ReduceMax 1]).
Proof.
  apply (proj1 all_missing_column_gives_nan_domain
           (Tab3.Build_row "F01" "R1" 0%Z nan 4 0.9 1.4) []).
  intros x [<-|[]]. reflexivity.
Defined.

(** ** Groups cover the frame *)

Section GroupCover.
Context {A : Type} (key : A -> string).

Lemma group_insert_cover (k : string) (a : A) (gs : list (string * list A)) :
  Permutation (List.concat (map snd (group_insert k a gs))) (a :: List.concat (map snd gs)).
Proof.
  induction gs as [|[k0 g] gs IH]; simpl; [reflexivity|].
  destruct (String.compare k k0); simpl.
  - rewrite <- app_assoc. simpl. symmetry. apply Permutation_middle.
  - reflexivity.
  - rewrite IH. symmetry. apply Permutation_middle.
Qed.

Lemma groupby_cover (df : list A) :
  Permutation (List.concat (map snd (groupby key df))) df.
Proof.
  unfold groupby.
  assert (G : forall l gs,
            Permutation
              (List.concat (map snd
                 (fold_left (fun groups r => group_insert (key r) r groups) l gs)))
              (List.concat (map snd gs) ++ l)).
  { induction l as [|a l IH]; intros gs; simpl; [now rewrite app_nil_r|].
    rewrite IH, group_insert_cover. apply Permutation_middle. }
  apply (G df []).
Qed.

Lemma groupby_keys_ascending (df : list A) :
  StronglySorted (fun a b => String.ltb a b = true) (map fst (groupby key df)).
Proof.
  eapply StronglySorted_weaken;
    [|apply (grouped_sorted _ _ _ (groupby_grouped key df))].
  intros a b H. unfold String.ltb.
  apply String_as_OT.cmp_lt in H. unfold String_as_OT.cmp in H. now rewrite H.
Qed.

End GroupCover.

(** X12: grouping neither loses nor repeats a row: the groups, put end to
    end, are a rearrangement of the frame, so the group sizes add up to the
    number of rows; and the summary frames of tab 2 and tab 3 list the
    facilities in strictly ascending order of their identifier. *)
Theorem groups_cover_the_frame :
  (forall df : list Tab2.row,
     Permutation (List.concat (map snd (groupby Tab2.FACILITY_ID df))) df /\
     list_sum (map (fun g => List.length (snd g)) (groupby Tab2.FACILITY_ID df))
       = List.length df) /\
  (forall df : list Tab3.row,
     Permutation (List.concat (map snd (groupby Tab3.FACILITY_ID df))) df /\
     list_sum (map (fun g => List.length (snd g)) (groupby Tab3.FACILITY_ID df))
       = List.length df) /\
  (forall df,
     StronglySorted (fun a b => String.ltb a b = true)
       (map Tab2.Perf.FACILITY_ID (Tab2.facility_performance df))) /\
  (forall df,
     StronglySorted (fun a b => String.ltb a b = true)
       (map Tab3.Kpi.Facility_ID (Tab3.kpi_by_facility df))).
Proof.
  assert (L : forall (A : Type) (gs : list (string * list A)),
            list_sum (map (fun g => List.length (snd g)) gs)
            = List.length (List.concat (map snd gs))).
  { intros A gs. induction gs as [|g gs IH]; simpl; [reflexivity|].
    now rewrite length_app, IH. }
  repeat apply conj.
  - intros df. split; [apply groupby_cover|].
    rewrite L. apply Permutation_length, groupby_cover.
  - intros df. split; [apply groupby_cover|].
    rewrite L. apply Permutation_length, groupby_cover.
  - intros df. unfold Tab2.facility_performance.
    rewrite (aggregated_keys Tab2.FACILITY_ID) by reflexivity.
    apply groupby_keys_ascending.
  - intros df. unfold Tab3.kpi_by_facility.
    rewrite (aggregated_keys Tab3.FACILITY_ID) by reflexivity.
    apply groupby_keys_ascending.
Qed.

(** ** Nothing selected *)

Lemma filter_none {A : Type} (f : A -> bool) (l : list A) :
  (forall x, f x = false) -> filter f l = [].
Proof.
  intros H. induction l as [|a l IH]; simpl; [reflexivity|]. now rewrite H.
Qed.

Lemma tab1_run_cards table selected_dc dr e :
  Tab1.cards (Tab1.run table selected_dc dr e) =
  Tab1.datacenter_dashboard (Tab1.df_dc (Tab1.run table selected_dc dr e)).
Proof. reflexivity. Qed.

Lemma tab3_run_df_fac_filtered table dr sel e :
  Tab3.df_fac_filtered (Tab3.run table dr sel e) =
  Tab3.filter_facilities sel (Tab3.df_rack_filtered (Tab3.run table dr sel e)).
Proof. reflexivity. Qed.

(** X13: with every option of a multiselect removed, no row passes.  In
    tab 1 the frame is empty whatever the dates, both averages on the cards
    are NaN and both totals are 0; in tab 3 the charts get an empty frame
    and their default scales, while the alerts and the KPI summary, taken
    before the facility filter, still cover the whole date range. *)
Theorem empty_selection_empties_the_frame :
  (forall table dr e,
     let env := Tab1.run table [] dr e in
     Tab1.df_dc env = [] /\
     Tab1.cards env = Tab1.Build_kpis nan nan 0 0) /\
  (forall table dr e,
     let env := Tab3.run table dr [] e in
     Tab3.df_fac_filtered env = [] /\
     value (Tab3.temp_domain env) = (-1, 2) /\
     value (Tab3.eff_domain env) = (0.0 - 0.05, 1.0 + 0.05) /\
     Tab3.alerts env = Tab3.anomaly_alerts (Tab3.filter_dates dr table) /\
     Tab3.kpi_summary env = Tab3.kpi_by_facility (Tab3.filter_dates dr table)).
Proof.
  split.
  - intros table dr e env. subst env.
    assert (E : Tab1.df_dc (Tab1.run table [] dr e) = []).
    { rewrite tab1_run_df_dc. apply filter_none. reflexivity. }
    split; [exact E|]. rewrite tab1_run_cards, E. reflexivity.
  - intros table dr e env. subst env.
    assert (E : Tab3.df_fac_filtered (Tab3.run table dr [] e) = []).
    { rewrite tab3_run_df_fac_filtered. apply filter_none. reflexivity. }
    assert (T : Tab3.temp_domain (Tab3.run table dr [] e)
                = Tab3.temp_scale (Tab3.df_fac_filtered (Tab3.run table dr [] e)))
      by reflexivity.
    assert (F : Tab3.eff_domain (Tab3.run table dr [] e)
                = Tab3.eff_scale (Tab3.df_fac_filtered (Tab3.run table dr [] e)))
      by reflexivity.
    rewrite T, F, E. repeat split.
Qed.

(** ** Selecting facilities and grouping *)

Section GroupSelect.
Context {A : Type} (key : A -> string) (keep : string -> bool).

Let keep_group (kg : string * list A) : bool := keep (fst kg).

Lemma group_insert_in_front (k : string) (a : A) (gs : list (string * list A)) :
  Forall (fun k' => String_as_OT.lt k k') (map fst gs) ->
  group_insert k a gs = (k, [a]) :: gs.
Proof.
  destruct gs as [|[k0 g] gs]; simpl; [reflexivity|]. intros F.
  inversion F as [|? ? H _]; subst.
  apply String_as_OT.cmp_lt in H. unfold String_as_OT.cmp in H. now rewrite H.
Qed.

Lemma group_insert_dropped (k : string) (a : A) (gs : list (string * list A)) :
  keep k = false ->
  filter keep_group (group_insert k a gs) = filter keep_group gs.
Proof.
  subst keep_group. intros K.
  induction gs as [|[k0 g] gs IH]; simpl; [now rewrite K|].
  destruct (String.compare k k0) eqn:E; simpl.
  - apply String.compare_eq_iff in E. subst k0. now rewrite K.
  - now rewrite K.
  - now rewrite IH.
Qed.

Lemma group_insert_kept (k : string) (a : A) (gs : list (string * list A)) :
  keep k = true ->
  StronglySorted String_as_OT.lt (map fst gs) ->
  filter keep_group (group_insert k a gs) = group_insert k a (filter keep_group gs).
Proof.
  subst keep_group. intros K.
  induction gs as [|[k0 g] gs IH]; simpl; intros S; [now rewrite K|].
  inversion S as [|? ? S' F]; subst.
  destruct (String.compare k k0) eqn:E; simpl.
  - apply String.compare_eq_iff in E as E'. subst k0.
    rewrite K. simpl. now rewrite E.
  - rewrite K. destruct (keep k0); simpl; [now rewrite E|].
    symmetry. apply group_insert_in_front.
    apply compare_Lt_lt in E.
    apply Forall_forall. intros k1 I. apply in_map_iff in I.
    destruct I as [kg [<- I]]. apply filter_In in I. destruct I as [I _].
    rewrite Forall_forall in F.
    eapply String_as_OT.lt_trans; [exact E|]. apply F. now apply in_map.
  - destruct (keep k0); simpl; [rewrite E|]; now rewrite IH.
Qed.

Lemma groupby_select (df : list A) :
  groupby key (filter (fun r => keep (key r)) df) =
  filter keep_group (groupby key df).
Proof.
  unfold groupby.
  assert (G : forall l gs,
            StronglySorted String_as_OT.lt (map fst gs) ->
            fold_left (fun groups r => group_insert (key r) r groups)
              (filter (fun r => keep (key r)) l) (filter keep_group gs) =
            filter keep_group
              (fold_left (fun groups r => group_insert (key r) r groups) l gs)).
  { induction l as [|a l IH]; simpl; intros gs S; [reflexivity|].
    pose proof (group_insert_sorted (key a) a gs S) as S'.
    destruct (keep (key a)) eqn:K; simpl.
    - rewrite <- (group_insert_kept _ _ _ K S). now apply IH.
    - rewrite <- (group_insert_dropped _ a gs K). now apply IH. }
  apply (G df []). constructor.
Qed.

End GroupSelect.

Lemma filter_comm {A : Type} (f g : A -> bool) (l : list A) :
  filter f (filter g l) = filter g (filter f l).
Proof.
  induction l as [|a l IH]; simpl; [reflexivity|].
  destruct (f a) eqn:F, (g a) eqn:G; simpl; rewrite ?F, ?G, IH; reflexivity.
Qed.

(** X14: selecting facilities in tab 2 only removes rows from the summary
    table: the summary of the selected facilities is the summary of all
    facilities with the rows of the unselected ones taken out, so a
    facility that stays shows the same totals and means whatever else is
    selected. *)
Theorem facility_selection_only_hides_summary_rows :
  (forall df selected_fac,
     Tab2.facility_performance (Tab2.filter_entity (Tab2.Facility selected_fac) df) =
     filter (fun o => isin selected_fac (Tab2.Perf.FACILITY_ID o))
            (Tab2.facility_performance df)) /\
  (forall table selected_fac dr e,
     Tab2.facility_perf (Tab2.run table (Tab2.Facility selected_fac) dr e) =
     filter (fun o => isin selected_fac (Tab2.Perf.FACILITY_ID o))
       (Tab2.facility_perf
          (Tab2.run table (Tab2.Facility (Widgets.tab2_facilities table)) dr e))).
Proof.
  assert (G : forall df selected_fac,
     Tab2.facility_performance (Tab2.filter_entity (Tab2.Facility selected_fac) df) =
     filter (fun o => isin selected_fac (Tab2.Perf.FACILITY_ID o))
            (Tab2.facility_performance df)).
  { intros df sel. unfold Tab2.facility_performance. simpl Tab2.filter_entity.
    rewrite (groupby_select Tab2.FACILITY_ID (isin sel)).
    induction (groupby Tab2.FACILITY_ID df) as [|g gs IH]; simpl; [reflexivity|].
    destruct (isin sel (fst g)); simpl; now rewrite IH. }
  split; [exact G|].
  intros table sel dr e.
  rewrite !tab2_run_facility_perf, !tab2_run_df_summary.
  unfold Tab2.filter_dates. rewrite !filter_idempotent.
  replace (Tab2.filter_entity (Tab2.Facility (Widgets.tab2_facilities table)) table)
    with table by (symmetry; apply (select_all_keeps_all Tab2.FACILITY_ID)).
  rewrite <- G. f_equal. simpl. apply filter_comm.
Qed.

(** ** The end date of a range *)

(** X15: whatever range is chosen, the end date counts as its midnight
    only: a row stamped during the end date, after 00:00, is left out,
    while every row of the start date and of the days in between is kept;
    a range from a day to the same day keeps only the rows stamped midnight
    of that day. *)
Theorem end_date_counts_as_midnight :
  (forall dr t, in_range dr t = true ->
     (fst dr <= Widgets.to_date t <= snd dr)%Z /\
     (Widgets.to_date t = snd dr -> t = to_datetime (snd dr))) /\
  (forall dr t, (fst dr <= Widgets.to_date t < snd dr)%Z -> in_range dr t = true) /\
  (forall d t, in_range (d, d) t = true <-> t = to_datetime d) /\
  (forall table d sel e r,
     In r (Tab3.df_rack_filtered (Tab3.run table (d, d) sel e)) <->
     In r table /\ Tab3.TIME_WINDOW r = to_datetime d).
Proof.
  assert (S : forall d t, in_range (d, d) t = true <-> t = to_datetime d).
  { intros d t. rewrite in_range_bounds.
    unfold to_datetime, timestamp, date in *. simpl. lia. }
  repeat apply conj.
  - intros [start stop] t H. apply in_range_bounds in H. cbn [fst snd] in *.
    pose proof (to_date_bounds t) as B.
    assert (L1 : (start <= Widgets.to_date t)%Z).
    { rewrite <- (to_date_to_datetime start). apply to_date_mono. lia. }
    assert (L2 : (Widgets.to_date t <= stop)%Z).
    { rewrite <- (to_date_to_datetime stop). apply to_date_mono. lia. }
    repeat split; try assumption. intros E. rewrite E in B.
    unfold timestamp, date in *. lia.
  - intros [start stop] t H. apply in_range_bounds. cbn [fst snd] in *.
    pose proof (to_date_bounds t) as B.
    assert (L1 : (to_datetime start <= to_datetime (Widgets.to_date t))%Z)
      by (apply (proj1 (to_datetime_mono _ _)); lia).
    assert (L2 : (to_datetime (Widgets.to_date t + 1) <= to_datetime stop)%Z)
      by (apply (proj1 (to_datetime_mono _ _)); lia).
    unfold timestamp, date in *. lia.
  - exact S.
  - intros table d sel e r. rewrite tab3_run_df_rack_filtered.
    unfold Tab3.filter_dates. rewrite filter_In, S. tauto.
Qed.

(** A reading of 12:00 on day 3 is inside the range from day 1 to day 5. *)
Lemma end_date_counts_as_midnight_witness :
  in_range (1, 5)%Z (3 * 86400000000000 + 43200000000000)%Z = true.
Proof.
  apply (proj1 (proj2 end_date_counts_as_midnight) (1, 5)%Z).
  vm_compute. split; [discriminate|reflexivity].
Defined.

(** ** Selecting a datacenter and grouping *)

(** X16: when every facility sits in one datacenter, as the join with the
    facility dimension gives it, selecting a datacenter in tab 2 only
    removes rows from the summary table too: what stays is the summary of
    all facilities restricted to the facilities of that datacenter. *)
Theorem datacenter_selection_only_hides_summary_rows :
  forall df selected_dc,
    (forall r1 r2, In r1 df -> In r2 df ->
       Tab2.FACILITY_ID r1 = Tab2.FACILITY_ID r2 ->
       Tab2.DATACENTER_ID r1 = Tab2.DATACENTER_ID r2) ->
    Tab2.facility_performance (Tab2.filter_entity (Tab2.Datacenter selected_dc) df) =
    filter
      (fun o =>
         existsb (fun r => String.eqb (Tab2.FACILITY_ID r) (Tab2.Perf.FACILITY_ID o)
                           && String.eqb (Tab2.DATACENTER_ID r) selected_dc) df)
      (Tab2.facility_performance df).
Proof.
  intros df dc H.
  set (keep := fun k =>
         existsb (fun r => String.eqb (Tab2.FACILITY_ID r) k
                           && String.eqb (Tab2.DATACENTER_ID r) dc) df).
  assert (E : Tab2.filter_entity (Tab2.Datacenter dc) df =
              filter (fun r => keep (Tab2.FACILITY_ID r)) df).
  { simpl. apply filter_ext_in. intros r I. unfold keep.
    destruct (String.eqb (Tab2.DATACENTER_ID r) dc) eqn:D.
    - symmetry. apply existsb_exists. exists r. split; [assumption|].
      now rewrite String.eqb_refl, D.
    - symmetry. apply not_true_is_false. intros X.
      apply existsb_exists in X. destruct X as [r' [I' X]].
      apply andb_true_iff in X. destruct X as [X1 X2].
      apply String.eqb_eq in X1. apply String.eqb_eq in X2.
      apply String.eqb_neq in D. apply D.
      rewrite <- X2. symmetry. now apply H. }
  rewrite E.
  change (filter _ (Tab2.facility_performance df))
    with (filter (fun o => keep (Tab2.Perf.FACILITY_ID o))
            (Tab2.facility_performance df)).
  clearbody keep. clear E H. unfold Tab2.facility_performance.
  rewrite (groupby_select Tab2.FACILITY_ID keep).
  induction (groupby Tab2.FACILITY_ID df) as [|g gs IH]; simpl; [reflexivity|].
  destruct (keep (fst g)); simpl; now rewrite IH.
Qed.

(** The example frame has both facilities in DC1; selecting DC1 hides
    nothing. *)
Lemma datacenter_selection_only_hides_summary_rows_witness :
  Tab2.facility_performance (Tab2.filter_entity (Tab2.Datacenter "DC1") two_facilities) =
  filter
    (fun o =>
       existsb (fun r => String.eqb (Tab2.FACILITY_ID r) (Tab2.Perf.FACILITY_ID o)
                         && String.eqb (Tab2.DATACENTER_ID r) "DC1") two_facilities)
    (Tab2.facility_performance two_facilities).
Proof.
  apply (datacenter_selection_only_hides_summary_rows two_facilities "DC1").
  intros r1 r2 I1 I2 _. simpl in I1, I2.
  destruct I1 as [<-|[<-|[<-|[<-|[]]]]];
    destruct I2 as [<-|[<-|[<-|[<-|[]]]]]; reflexivity.
Defined.

(** ** The sums of numpy and of the group-by kernels *)

(** The pairwise recursion never runs out of fuel when it is given the
    length of the column: more fuel gives the same sum. *)
Lemma pairwise_sum_fuel (f1 f2 : nat) (a : list float) :
  (List.length a <= f1)%nat -> (List.length a <= f2)%nat ->
  pairwise_sum f1 a = pairwise_sum f2 a.
Proof.
  revert f2 a. induction f1 as [|f1 IH]; intros f2 a H1 H2.
  - destruct a; [|simpl in H1; lia]. destruct f2; reflexivity.
  - destruct f2 as [|f2].
    + destruct a; [reflexivity|simpl in H2; lia].
    + cbn [pairwise_sum].
      destruct (List.length a <? 8)%nat; [reflexivity|].
      destruct (List.length a <=? 128)%nat eqn:E; [reflexivity|].
      apply Nat.leb_gt in E.
      set (n2 := (List.length a / 2 - (List.length a / 2) mod 8)%nat).
      assert (B : (57 <= n2 < List.length a)%nat).
      { unfold n2.
        pose proof (Nat.mod_upper_bound (List.length a / 2) 8 ltac:(lia)).
        assert (64 <= List.length a / 2)%nat
          by (apply Nat.div_le_lower_bound; lia).
        assert (List.length a / 2 < List.length a)%nat
          by (apply Nat.div_lt; lia).
        lia. }
      rewrite (IH f2 (firstn n2 a)), (IH f2 (skipn n2 a)); try reflexivity;
        rewrite ?length_firstn, ?length_skipn; lia.
Qed.

Example numpy_and_kernel_sums :
  series_sum [0.1; 0.2; 0.3] = 0.6000000000000001 /\
  series_sum [0.1; 0.1; 0.1; 0.1; 0.1; 0.1; 0.1; 0.1; 0.1; 0.1] = 1 /\
  series_mean [0.1; nan; 0.3] = 0.2 /\
  group_sum [0.1; 0.2; 0.3] = 0.6 /\
  group_mean [0.1; 0.2; 0.3] = 0.19999999999999998 /\
  group_sum [0.1; 0.1; 0.1; 0.1; 0.1; 0.1; 0.1; 0.1; 0.1; 0.1] = 1 /\
  group_mean [1.39; nan; 1.12; 1.39] = 1.3 /\
  group_sum [nan; nan] = 0 /\
  is_nan (group_mean [nan; nan]) = true /\
  group_sum [infinity; 1] = infinity.
Proof. repeat apply conj; vm_compute; reflexivity. Qed.
